(** * SlothfulTrader: the decision pipeline, embedded and verified

    A shallow embedding of the TypeScript sources of the trading agent:

    - [tools/trading-tools.ts]: [TradingTools.generateSignal],
      [calculateIndicators], [analyzeMarket], [calculatePositionSize];
    - [memory/trading-memory.ts] and [services/recall-service.ts]:
      [storeTradingDecision], [storeMarketInsight], [RecallMemory.store];
    - [workflows/trading-workflow.ts]: the four steps [MarketAnalysis],
      [DecisionMaking], [TradeExecution], [PostTradeAnalysis];
    - [agent.ts]: [SlothfulTrader.analyzeTradingPair] and
      [executeTradingDecision].

    Modelling choices.

    - A JavaScript [number] is an IEEE 754 binary64 value: Rocq's primitive
      [float], with [Math.min] and [Math.round] written out from ECMAScript.
      [Date.now()] is an integer count of milliseconds and is kept in [Z].
    - [async] code runs in a state-and-exception monad [M]: the state is the
      external world (what the capabilities, the clock and [Math.random]
      answer next) together with the trace of capability calls made so far;
      a rejected promise or a thrown error is [Throw].
    - The capabilities of [tools/recall-tools.ts], the HTTP client and the
      language-model agent are external: they are the fields of the class
      [Capabilities], and every theorem holds for all of them.
    - [winston] logging has no influence on control flow and is left out.
    - Not embedded: the tools [getStrategy] and [monitorTrade], the ledger
      queries of [trading-memory.ts], and the [start] / [stop] /
      [tradingLoop] lifecycle of the agent, whose interleaving with the
      loop is concurrent; the cooldown properties are stated over arbitrary
      sequences of calls of [analyzeTradingPair] instead. *)

From Stdlib Require Import ZArith Lia Bool List String Ascii.
From Stdlib Require Import Floats DecimalString.
From Stdlib Require Uint63.
Import ListNotations.

Set Warnings "-inexact-float".
Set Implicit Arguments.

(* ================================================================== *)
(** * Part I: the model *)
(* ================================================================== *)

(** ** JavaScript numbers *)

Module Js.

Open Scope float_scope.

(** [a > b] on numbers: false as soon as one side is NaN. *)
Definition gtb (a b : float) : bool := b <? a.

Definition is_pos_zero (x : float) : bool :=
  PrimFloat.is_zero x && negb (PrimFloat.get_sign x).
Definition is_neg_zero (x : float) : bool :=
  PrimFloat.is_zero x && PrimFloat.get_sign x.

(** [Math.min(a, b)] (ECMAScript 21.3.2.25): NaN if either is NaN; starting
    from [lowest = a], [b] replaces it when [b < lowest] or when [b] is -0
    and [lowest] is +0. *)
Definition Math_min (a b : float) : float :=
  if PrimFloat.is_nan a || PrimFloat.is_nan b then nan
  else if (b <? a) || (is_neg_zero b && is_pos_zero a) then b
  else a.

(** The integer [k] as a number, exact for [|k| < 2^53]. *)
Definition of_Z (k : Z) : float :=
  match k with
  | Z0 => zero
  | Zpos _ => of_uint63 (Uint63.of_Z k)
  | Zneg p => - of_uint63 (Uint63.of_Z (Zpos p))
  end.

(** [Math.round(x)] (ECMAScript 21.3.2.28): NaN, the infinities, the zeros
    and the integers are returned unchanged; otherwise the nearest integer,
    ties going towards +infinity, and -0 for [-0.5 <= x < 0].  A finite
    [x] is [(-1)^s * m * 2^e]; for [e < 0], [floor (x + 1/2)] is
    [(2 * (+/-m) + 2^-e) / 2^(1-e)] in exact integer arithmetic. *)
Definition Math_round (x : float) : float :=
  match Prim2SF x with
  | S754_finite s m (Zneg n) =>
      let two_n := Z.pow 2 (Zpos n) in
      let sm := if s then Z.opp (Zpos m) else Zpos m in
      let k := Z.div (2 * sm + two_n) (2 * two_n) in
      match k with
      | Z0 => if s then neg_zero else zero
      | _ => of_Z k
      end
  | _ => x
  end.

End Js.

(** ** JavaScript strings *)

Module Str.

Open Scope string_scope.

(** [s.split(sep)] for a one-character separator. *)
Fixpoint split (sep : ascii) (s : string) : list string :=
  match s with
  | EmptyString => [EmptyString]
  | String c rest =>
      if Ascii.eqb c sep then EmptyString :: split sep rest
      else match split sep rest with
           | hd :: tl => String c hd :: tl
           | [] => [String c EmptyString]
           end
  end.

Definition lower_char (c : ascii) : ascii :=
  let n := nat_of_ascii c in
  if (65 <=? n)%nat && (n <=? 90)%nat then ascii_of_nat (n + 32) else c.

(** [s.toLowerCase()] on the ASCII letters. *)
Fixpoint toLowerCase (s : string) : string :=
  match s with
  | EmptyString => EmptyString
  | String c rest => String (lower_char c) (toLowerCase rest)
  end.

(** [hay.includes(needle)]. *)
Fixpoint includes (needle hay : string) : bool :=
  if prefix needle hay then true
  else match hay with
       | EmptyString => false
       | String _ rest => includes needle rest
       end.

Definition is_space (c : ascii) : bool :=
  let n := nat_of_ascii c in
  (n =? 32)%nat || ((9 <=? n)%nat && (n <=? 13)%nat).

Fixpoint trimStart (s : string) : string :=
  match s with
  | EmptyString => EmptyString
  | String c rest => if is_space c then trimStart rest else s
  end.

Fixpoint trimEnd (s : string) : string :=
  match s with
  | EmptyString => EmptyString
  | String c rest =>
      match trimEnd rest with
      | EmptyString => if is_space c then EmptyString else String c EmptyString
      | rest' => String c rest'
      end
  end.

(** [s.trim()]. *)
Definition trim (s : string) : string := trimEnd (trimStart s).

(** [opt === lit] for a destructured array element, [undefined] being [None]. *)
Definition opt_eqb (o : option string) (lit : string) : bool :=
  match o with
  | Some s => String.eqb s lit
  | None => false
  end.

(** An integer number printed in a template literal. *)
Definition of_Z (n : Z) : string := NilZero.string_of_int (Z.to_int n).

End Str.

(** ** The data model *)

Open Scope string_scope.

(** [TechnicalIndicators] of [trading-tools.ts]. *)
Record MACD := { line : float; signal : float; histogram : float }.

Record MovingAverages :=
  { sma20 : float; sma50 : float; ema12 : float; ema26 : float }.

Record TechnicalIndicators :=
  { rsi : float;
    macd : MACD;
    movingAverages : MovingAverages;
    volume : float;
    volatility : float }.

(** ['buy' | 'sell' | 'hold']. *)
Inductive Action := buy | sell | hold.

Definition Action_eqb (a b : Action) : bool :=
  match a, b with
  | buy, buy | sell, sell | hold, hold => true
  | _, _ => false
  end.

Definition Action_toString (a : Action) : string :=
  match a with buy => "buy" | sell => "sell" | hold => "hold" end.

(** [TradingSignal]; an optional field that is [undefined] is [None]. *)
Record TradingSignal :=
  { action : Action;
    confidence : float;
    reason : string;
    suggestedAmount : option float;
    targetPrice : option float;
    stopLoss : option float }.

(** The two object shapes [DecisionMaking] returns:
    [{ execute: false, reason }] and
    [{ execute: true, action, symbol, positionSize, reason, confidence }]. *)
Inductive Decision :=
| NoTrade (reason : string)
| Trade (action : Action) (symbol : string) (positionSize : float)
        (reason : string) (confidence : float).

(** The object shapes [TradeExecution] returns:
    [{ executed: true, txHash, amountIn, estimatedAmountOut, priceImpact }],
    [{ executed: false, reason }] and [{ executed: false, error }]. *)
Inductive ExecutionResult :=
| Executed (txHash amountIn estimatedAmountOut : string) (priceImpact : float)
| Skipped (reason : string)
| Failed (error : string).

Definition executed (r : ExecutionResult) : bool :=
  match r with Executed _ _ _ _ => true | _ => false end.

(** What [PostTradeAnalysis] returns. *)
Inductive Status := success | skipped.

Record Report :=
  { status : Status; message : string; execution : option ExecutionResult }.

(** The answers of the external capabilities. *)
Record Portfolio := { totalBalance : float }.
Record Quote := { amountOut : string; quote_priceImpact : float }.
Record AgentResponse := { text : string }.

(** [TradingMemoryEntry] of [trading-memory.ts]; [timestamp] is the [Date]
    as milliseconds.  The workflow passes its decision object as [signal]. *)
Record TradeResult :=
  { result_executed : bool;
    result_price : option float;
    result_amount : option float;
    result_profit : option float }.

Record TradingMemoryEntry :=
  { entry_timestamp : Z;
    entry_symbol : string;
    entry_action : string;
    entry_signal : option Decision;
    entry_indicators : option TechnicalIndicators;
    entry_result : option TradeResult;
    entry_notes : option string }.

(** The two payloads handed to [RecallMemory.store]. *)
Inductive MemoryData :=
| trading_decision (timestamp symbol action : string)
    (signal : option Decision) (indicators : option TechnicalIndicators)
    (result : option TradeResult) (notes : option string)
| market_insight (timestamp symbol insight : string) (confidence : float).

(** The two prompts [agent.ts] sends to the language-model agent: the market
    analysis request for a symbol, and the request to carry out an action on
    a symbol given the analysis text. *)
Inductive Prompt :=
| AnalysisPrompt (symbol : string)
| DecisionPrompt (action : string) (symbol analysis : string).

(** ** Errors and outcomes *)

Record JsError := { err_name : string; err_message : string }.

Definition Error (msg : string) : JsError :=
  {| err_name := "Error"; err_message := msg |}.

(** Reading an identifier that no enclosing scope binds. *)
Definition ReferenceError (ident : string) : JsError :=
  {| err_name := "ReferenceError"; err_message := ident ++ " is not defined" |}.

Definition TypeError (msg : string) : JsError :=
  {| err_name := "TypeError"; err_message := msg |}.

(** [`${error}`]. *)
Definition error_toString (e : JsError) : string :=
  err_name e ++ ": " ++ err_message e.

Inductive outcome (A : Type) :=
| Ret (a : A)
| Throw (e : JsError).

Arguments Ret {A} a.
Arguments Throw {A} e.

(** ** Capability calls and the effect monad *)

(** One entry per call of a tool or of an external capability, in call
    order. *)
Inductive Event :=
| EvGetMarketData (symbol : string)
| EvAnalyzeMarket (symbol timeframe : string)
| EvGetPortfolioBalance
| EvCalculatePositionSize (totalBalance riskPercentage stopLossPercentage : float)
| EvGetTradeQuote (tokenIn tokenOut amountIn : string)
| EvExecuteTrade (tokenIn tokenOut amountIn minAmountOut : string)
| EvMemoryStore (key : string) (data : MemoryData)
| EvAgentExecute (prompt : Prompt).

(** Pure functions of the language runtime that print and parse numbers and
    dates. *)
Class Builtins :=
  { Number_toString : float -> string;
    Number_toFixed : float -> Z -> string;
    parseFloat : string -> float;
    Date_toISOString : Z -> string }.

(** What the program consumes from outside: the runtime's clock and random
    source, the tools of [recall-tools.ts], the HTTP client of
    [recall-service.ts] and the agent of [@mastra/core].  Each takes the
    world, answers or fails, and leaves a new world. *)
Class Capabilities (World MarketData : Type) :=
  { Math_random : World -> float * World;
    Date_now : World -> Z * World;
    getMarketData : string -> World -> outcome MarketData * World;
    getPortfolioBalance : World -> outcome Portfolio * World;
    getTradeQuote : string -> string -> string -> World -> outcome Quote * World;
    executeTrade :
      string -> string -> string -> string -> World -> outcome string * World;
    apiClient_post :
      string -> string -> MemoryData -> string -> World -> outcome unit * World;
    agent_execute : Prompt -> World -> outcome AgentResponse * World;
    price : MarketData -> float }.

Record St (World : Type) := { world : World; trace : list Event }.

Arguments world {World} _.
Arguments trace {World} _.

Definition M (World A : Type) : Type := St World -> outcome A * St World.

Section Monad.

Context {World : Type}.

Definition ret {A} (a : A) : M World A := fun st => (Ret a, st).

Definition throw {A} (e : JsError) : M World A := fun st => (Throw e, st).

Definition bind {A B} (m : M World A) (k : A -> M World B) : M World B :=
  fun st =>
    match m st with
    | (Ret a, st') => k a st'
    | (Throw e, st') => (Throw e, st')
    end.

(** [try { m } catch (error) { h error }]: the effects of [m] up to the
    throw stay. *)
Definition try_catch {A} (m : M World A) (h : JsError -> M World A) : M World A :=
  fun st =>
    match m st with
    | (Ret a, st') => (Ret a, st')
    | (Throw e, st') => h e st'
    end.

(** A total runtime service (clock, random source). *)
Definition ask {A} (f : World -> A * World) : M World A :=
  fun st =>
    let (a, w) := f (world st) in
    (Ret a, {| world := w; trace := trace st |}).

(** A capability call: recorded in the trace, then answered by the world. *)
Definition call {A} (ev : Event) (f : World -> outcome A * World) : M World A :=
  fun st =>
    let (r, w) := f (world st) in
    (r, {| world := w; trace := trace st ++ [ev] |}).

(** A tool invocation, recorded in the trace. *)
Definition invoke (ev : Event) : M World unit :=
  fun st => (Ret tt, {| world := world st; trace := trace st ++ [ev] |}).

(** An expression that may throw. *)
Definition lift {A} (r : outcome A) : M World A := fun st => (r, st).

End Monad.

Notation "x <- m ;; k" := (bind m (fun x => k))
  (at level 61, m at next level, right associativity).
Notation "m ;;; k" := (bind m (fun _ => k))
  (at level 61, right associativity).

(** ** [tools/trading-tools.ts] *)

Module TradingTools.

Section Tools.

Context {World MarketData : Type} {caps : Capabilities World MarketData}.

Open Scope float_scope.

(** [calculateIndicators]: ten draws of [Math.random()], in the order of the
    object literal. *)
Definition calculateIndicators (symbol timeframe : string)
  : M World TechnicalIndicators :=
  r1 <- ask Math_random ;;
  r2 <- ask Math_random ;;
  r3 <- ask Math_random ;;
  r4 <- ask Math_random ;;
  r5 <- ask Math_random ;;
  r6 <- ask Math_random ;;
  r7 <- ask Math_random ;;
  r8 <- ask Math_random ;;
  r9 <- ask Math_random ;;
  r10 <- ask Math_random ;;
  ret {| rsi := r1 * 100;
         macd := {| line := (r2 - 0.5) * 2;
                    signal := (r3 - 0.5) * 2;
                    histogram := (r4 - 0.5) * 2 |};
         movingAverages := {| sma20 := r5 * 100 + 50;
                              sma50 := r6 * 100 + 50;
                              ema12 := r7 * 100 + 50;
                              ema26 := r8 * 100 + 50 |};
         volume := r9 * 1000000;
         volatility := r10 * 0.5 |}.

(** [generateSignal].  The three mutable locals [action], [confidence] and
    [reason] are threaded through the five rule blocks; the optional fields
    of the returned object draw from [Math.random()] in field order. *)
Definition generateSignal (indicators : TechnicalIndicators)
  : M World TradingSignal :=
  let action := hold in
  let confidence := 0 in
  let reason := EmptyString in
  (* RSI-based signals *)
  let '(action, confidence, reason) :=
    if rsi indicators <? 30 then
      (buy, confidence + 0.3, (reason ++ "RSI oversold. ")%string)
    else if Js.gtb (rsi indicators) 70 then
      (sell, confidence + 0.3, (reason ++ "RSI overbought. ")%string)
    else (action, confidence, reason) in
  (* MACD signals *)
  let '(action, confidence, reason) :=
    if Js.gtb (line (macd indicators)) (signal (macd indicators))
       && Js.gtb (histogram (macd indicators)) 0 then
      ((if Action_eqb action hold then buy else action),
       confidence + 0.25, (reason ++ "MACD bullish crossover. ")%string)
    else if (line (macd indicators) <? signal (macd indicators))
            && (histogram (macd indicators) <? 0) then
      ((if Action_eqb action hold then sell else action),
       confidence + 0.25, (reason ++ "MACD bearish crossover. ")%string)
    else (action, confidence, reason) in
  (* Moving average signals *)
  let '(action, confidence, reason) :=
    if Js.gtb (ema12 (movingAverages indicators))
              (ema26 (movingAverages indicators)) then
      ((if Action_eqb action hold then buy else action),
       confidence + 0.2, (reason ++ "EMA bullish alignment. ")%string)
    else if ema12 (movingAverages indicators)
            <? ema26 (movingAverages indicators) then
      ((if Action_eqb action hold then sell else action),
       confidence + 0.2, (reason ++ "EMA bearish alignment. ")%string)
    else (action, confidence, reason) in
  (* Volume confirmation *)
  let '(confidence, reason) :=
    if Js.gtb (volume indicators) 500000 then
      (confidence + 0.15, (reason ++ "High volume confirmation. ")%string)
    else (confidence, reason) in
  (* Volatility adjustment *)
  let '(confidence, reason) :=
    if Js.gtb (volatility indicators) 0.3 then
      (confidence * 0.8, (reason ++ "High volatility detected. ")%string)
    else (confidence, reason) in
  let confidence := Js.Math_min confidence 1 in
  suggested <-
    (if negb (Action_eqb action hold)
     then r <- ask Math_random ;; ret (Some (r * 1000 + 100))
     else ret None) ;;
  target <-
    (if Action_eqb action buy
     then r <- ask Math_random ;; ret (Some (r * 10 + 100))
     else ret None) ;;
  stop <-
    (if Action_eqb action buy
     then r <- ask Math_random ;; ret (Some (r * 5 + 95))
     else ret None) ;;
  ret {| action := action;
         confidence := Js.Math_round (confidence * 100) / 100;
         reason := Str.trim reason;
         suggestedAmount := suggested;
         targetPrice := target;
         stopLoss := stop |}.

(** [analyzeMarket.execute({ symbol, timeframe })]. *)
Definition analyzeMarket (symbol timeframe : string) : M World TradingSignal :=
  invoke (EvAnalyzeMarket symbol timeframe) ;;;
  try_catch
    (indicators <- calculateIndicators symbol timeframe ;;
     signal <- generateSignal indicators ;;
     ret signal)
    (fun error =>
       throw (Error ("Failed to analyze market: " ++ error_toString error))).

(** [calculatePositionSize.execute({ totalBalance, riskPercentage,
    stopLossPercentage })]: no check of the arguments, no [throw]. *)
Definition calculatePositionSize
    (totalBalance riskPercentage stopLossPercentage : float) : M World float :=
  invoke (EvCalculatePositionSize totalBalance riskPercentage stopLossPercentage) ;;;
  let riskAmount := totalBalance * (riskPercentage / 100) in
  let positionSize := riskAmount / (stopLossPercentage / 100) in
  ret (Js.Math_min positionSize (totalBalance * 0.5)).

End Tools.

End TradingTools.

(** ** [services/recall-service.ts] and [memory/trading-memory.ts] *)

Module TradingMemory.

Section Memory.

Context {World MarketData : Type} {B : Builtins}
        {caps : Capabilities World MarketData}.

(** [RecallMemory.store(key, data)]: one POST to ['/store'], whose failure
    is rethrown as a new [Error]. *)
Definition store (key : string) (data : MemoryData) : M World unit :=
  try_catch
    (now <- ask Date_now ;;
     call (EvMemoryStore key data)
          (apiClient_post "/store" key data (Date_toISOString now)))
    (fun error =>
       throw (Error ("Failed to store memory: " ++ error_toString error))).

(** [storeTradingDecision(entry)]. *)
Definition storeTradingDecision (entry : TradingMemoryEntry) : M World unit :=
  let memoryData :=
    trading_decision (Date_toISOString (entry_timestamp entry))
      (entry_symbol entry) (entry_action entry) (entry_signal entry)
      (entry_indicators entry) (entry_result entry) (entry_notes entry) in
  now <- ask Date_now ;;
  store ("trading_" ++ entry_symbol entry ++ "_" ++ Str.of_Z now) memoryData.

(** [storeMarketInsight(symbol, insight, confidence)]. *)
Definition storeMarketInsight (symbol insight : string) (confidence : float)
  : M World unit :=
  stamp <- ask Date_now ;;
  let memoryData :=
    market_insight (Date_toISOString stamp) symbol insight confidence in
  now <- ask Date_now ;;
  store ("insight_" ++ symbol ++ "_" ++ Str.of_Z now) memoryData.

End Memory.

End TradingMemory.

(** ** [workflows/trading-workflow.ts] *)

Module TradingWorkflow.

(** What the free identifiers [ethers] and [marketData] of the
    [TradeExecution] arrow function resolve to.  [ethers] stands for
    [ethers.utils.parseUnits(value, decimals).toString()], which may throw. *)
Record Scope (MarketData : Type) :=
  { scope_ethers : option (string -> Z -> outcome string);
    scope_marketData : option MarketData }.

Arguments scope_ethers {MarketData} _.
Arguments scope_marketData {MarketData} _.

(** The scope of the module as written: it imports [Workflow], [Step],
    [RecallNetworkTools], [TradingTools], [TradingMemory], [config] and
    [winston], declares [logger], [recallTools], [tradingTools] and
    [memory], and the step's only parameter is [decision].  Neither
    [ethers] nor [marketData] is bound. *)
Definition module_scope {MarketData : Type} : Scope MarketData :=
  {| scope_ethers := None; scope_marketData := None |}.

(** What [MarketAnalysis] returns. *)
Record Analysis (MarketData : Type) :=
  { analysis_symbol : string;
    analysis_marketData : MarketData;
    analysis_signal : TradingSignal }.

Arguments analysis_symbol {MarketData} _.
Arguments analysis_marketData {MarketData} _.
Arguments analysis_signal {MarketData} _.

Section Steps.

Context {World MarketData : Type} {B : Builtins}
        {caps : Capabilities World MarketData}.

Open Scope float_scope.

(** Reading an identifier: its value, or a [ReferenceError]. *)
Definition lookup {A} (ident : string) (binding : option A) : M World A :=
  match binding with
  | Some v => ret v
  | None => throw (ReferenceError ident)
  end.

(** Step 1, [MarketAnalysis]; [timeframe] defaults to ['1h']. *)
Definition MarketAnalysis (symbol : string) (timeframe : option string)
  : M World (Analysis MarketData) :=
  let timeframe := match timeframe with Some t => t | None => "1h"%string end in
  marketData <- call (EvGetMarketData symbol) (getMarketData symbol) ;;
  signal <- TradingTools.analyzeMarket symbol timeframe ;;
  ret {| analysis_symbol := symbol;
         analysis_marketData := marketData;
         analysis_signal := signal |}.

(** Step 2, [DecisionMaking]. *)
Definition DecisionMaking (input : Analysis MarketData) : M World Decision :=
  let symbol := analysis_symbol input in
  let signal := analysis_signal input in
  if Action_eqb (action signal) hold || (confidence signal <? 0.6) then
    ret (NoTrade ("Low confidence (" ++ Number_toString (confidence signal) ++ ")"))
  else
    portfolio <- call EvGetPortfolioBalance getPortfolioBalance ;;
    positionSize <-
      TradingTools.calculatePositionSize
        (totalBalance portfolio) 1.5
        (if Action_eqb (action signal) buy then 3 else 2) ;;
    ret (Trade (action signal) symbol positionSize
               (reason signal) (confidence signal)).

(** Step 3, [TradeExecution], with the free identifiers resolved by [sc].
    [None] is the [undefined] the function returns when it falls off its
    end. *)
Definition TradeExecution_in (sc : Scope MarketData) (decision : Decision)
  : M World (option ExecutionResult) :=
  match decision with
  | NoTrade reason => ret (Some (Skipped reason))
  | Trade action symbol positionSize reason confidence =>
    try_catch
      (let parts := Str.split "/" symbol in
       let baseAsset := nth_error parts 0 in
       let quoteAsset := nth_error parts 1 in
       match action with
       | buy =>
         let tokenIn :=
           if Str.opt_eqb quoteAsset "USDC"
           then "0xa0b86991c6218b36c1d19d4a2e9eb0ce3606eb48"%string
           else "0xdac17f958d2ee523a2206206994597c13d831ec7"%string in
         let tokenOut :=
           if Str.opt_eqb baseAsset "ETH"
           then "0xc02aaa39b223fe8d0a0e5c4f27ead9083c756cc2"%string
           else if Str.opt_eqb baseAsset "BTC"
           then "0x2260fac5e5542a773aa44fbcfedf7c193bc2c599"%string
           else "0x514910771af9ca656af840dff83e8264ecf986ca"%string in
         let amountIn := Number_toFixed (positionSize * 0.99) 6 in
         (* Get quote *)
         parseUnits <- lookup "ethers" (scope_ethers sc) ;;
         units <- lift (parseUnits amountIn 6%Z) ;;
         quote <- call (EvGetTradeQuote tokenIn tokenOut units)
                       (getTradeQuote tokenIn tokenOut units) ;;
         if quote_priceImpact quote <? 1.5 then
           parseUnits <- lookup "ethers" (scope_ethers sc) ;;
           units <- lift (parseUnits amountIn 6%Z) ;;
           let minAmountOut :=
             Number_toString (parseFloat (amountOut quote) * 0.99) in
           txHash <- call (EvExecuteTrade tokenIn tokenOut units minAmountOut)
                          (executeTrade tokenIn tokenOut units minAmountOut) ;;
           (* Store trade in memory *)
           timestamp <- ask Date_now ;;
           marketData <- lookup "marketData" (scope_marketData sc) ;;
           TradingMemory.storeTradingDecision
             {| entry_timestamp := timestamp;
                entry_symbol := symbol;
                entry_action := Action_toString action;
                entry_signal := Some decision;
                entry_indicators := None;
                entry_result :=
                  Some {| result_executed := true;
                          result_price := Some (price marketData);
                          result_amount := Some (parseFloat amountIn);
                          result_profit := None |};
                entry_notes := None |} ;;;
           ret (Some (Executed txHash amountIn (amountOut quote)
                               (quote_priceImpact quote)))
         else
           ret (Some (Skipped ("Price impact too high: "
                               ++ Number_toString (quote_priceImpact quote)
                               ++ "%")))
       | sell =>
         (* Similar implementation for sell, just reverse tokenIn and tokenOut *)
         ret (Some (Skipped "Sell implementation pending"))
       | hold => ret None
       end)
      (fun error => ret (Some (Failed (err_message error))))
  end.

(** Step 3 as the module runs it. *)
Definition TradeExecution : Decision -> M World (option ExecutionResult) :=
  TradeExecution_in module_scope.

(** Step 4, [PostTradeAnalysis]; reading [.executed] of [undefined] throws. *)
Definition PostTradeAnalysis (executionResult : option ExecutionResult)
  : M World Report :=
  match executionResult with
  | None =>
      throw (TypeError "Cannot read properties of undefined (reading 'executed')")
  | Some (Executed txHash _ _ _ as r) =>
      ret {| status := success;
             message := "Trade executed with tx hash " ++ txHash;
             execution := Some r |}
  | Some (Skipped reason) =>
      ret {| status := skipped;
             message := if String.eqb reason EmptyString then "Unknown reason" else reason;
             execution := None |}
  | Some (Failed _) =>
      ret {| status := skipped; message := "Unknown reason"; execution := None |}
  end.

(** The four steps in order, each fed the value the previous one returned. *)
Definition tradingWorkflow (symbol : string) (timeframe : option string)
  : M World Report :=
  analysis <- MarketAnalysis symbol timeframe ;;
  decision <- DecisionMaking analysis ;;
  executionResult <- TradeExecution decision ;;
  PostTradeAnalysis executionResult.

End Steps.

End TradingWorkflow.

(** ** [agent.ts] *)

Module SlothfulTrader.

(** The fields of the [SlothfulTrader] object (the [Agent] it holds is the
    capability [agent_execute]). *)
Record SlothfulTrader :=
  { isActive : bool;
    lastTradeTimestamp : Z;
    tradingPairs : list string;
    cooldownPeriod : Z }.

(** The field initialisers of the class. *)
Definition new_SlothfulTrader : SlothfulTrader :=
  {| isActive := false;
     lastTradeTimestamp := 0;
     tradingPairs := ["ETH/USDC"; "BTC/USDC"; "LINK/USDC"];
     cooldownPeriod := 5 * 60 * 1000 |}.

Definition set_lastTradeTimestamp (self : SlothfulTrader) (now : Z)
  : SlothfulTrader :=
  {| isActive := isActive self;
     lastTradeTimestamp := now;
     tradingPairs := tradingPairs self;
     cooldownPeriod := cooldownPeriod self |}.

Section Agent.

Context {World MarketData : Type} {B : Builtins}
        {caps : Capabilities World MarketData}.

(** [executeTradingDecision(symbol, analysis)]: every failure is caught. *)
Definition executeTradingDecision (symbol analysis : string) : M World unit :=
  try_catch
    (let action :=
       if Str.includes "buy" (Str.toLowerCase analysis) then "buy" else "sell" in
     result <- call (EvAgentExecute (DecisionPrompt action symbol analysis))
                    (agent_execute (DecisionPrompt action symbol analysis)) ;;
     (* Store the trading decision *)
     timestamp <- ask Date_now ;;
     TradingMemory.storeTradingDecision
       {| entry_timestamp := timestamp;
          entry_symbol := symbol;
          entry_action := action;
          entry_signal := None;
          entry_indicators := None;
          entry_result :=
            Some {| result_executed :=
                      Str.includes "executed" (Str.toLowerCase (text result))
                      || Str.includes "successful" (Str.toLowerCase (text result));
                    result_price := None;
                    result_amount := None;
                    result_profit := None |};
          entry_notes := Some analysis |})
    (fun error => ret tt).

(** [analyzeTradingPair(symbol)]: the object after the call.  [now] is read
    once, on entry; the cooldown test and the later assignment to
    [lastTradeTimestamp] both use it. *)
Definition analyzeTradingPair (self : SlothfulTrader) (symbol : string)
  : M World SlothfulTrader :=
  try_catch
    (now <- ask Date_now ;;
     (* Check if we're still in cooldown period since last trade *)
     if (now - lastTradeTimestamp self <? cooldownPeriod self)%Z then
       ret self
     else
       (* Get market analysis *)
       marketAnalysis <- call (EvAgentExecute (AnalysisPrompt symbol))
                              (agent_execute (AnalysisPrompt symbol)) ;;
       (* Store the analysis in memory *)
       TradingMemory.storeMarketInsight symbol (text marketAnalysis) 0.7%float ;;;
       (* Check if the analysis suggests a trade *)
       if Str.includes "buy" (Str.toLowerCase (text marketAnalysis))
          || Str.includes "sell" (Str.toLowerCase (text marketAnalysis))
       then
         executeTradingDecision symbol (text marketAnalysis) ;;;
         ret (set_lastTradeTimestamp self now)
       else ret self)
    (fun error => ret self).

End Agent.

(** A sequence of evaluation attempts: from an object, any number of calls
    of [analyzeTradingPair], on any symbols, each in whatever state the
    world is in by then. *)
Inductive attempts {World MarketData : Type} {B : Builtins}
    {caps : Capabilities World MarketData}
  : SlothfulTrader -> SlothfulTrader -> Prop :=
| attempts_none (self : SlothfulTrader) : attempts self self
| attempts_next (self self' self'' : SlothfulTrader) (symbol : string)
    (st st' : St World) :
    analyzeTradingPair self symbol st = (Ret self', st') ->
    attempts self' self'' ->
    attempts self self''.

End SlothfulTrader.

(** ** The scoring rules as the specification words them

    Section 4.1 of the specification describes the Signal Engine as five
    independent rules, each firing at most once.  [firing] records which of
    them fire on a snapshot; [bias], [score] and [rationale] are the
    verdict the specification derives from that.  [generateSignal] is
    compared with them in Part II. *)

Module SignalEngine.

Open Scope float_scope.

Record Firing :=
  { momentum : option Action;    (* oversold: buy; overbought: sell *)
    trend : option Action;       (* bullish / bearish crossover *)
    alignment : option Action;   (* bullish / bearish EMA alignment *)
    confirmation : bool;         (* volume above 500000 *)
    dampening : bool }.          (* volatility above 0.3 *)

Definition firing (i : TechnicalIndicators) : Firing :=
  {| momentum :=
       if rsi i <? 30 then Some buy
       else if Js.gtb (rsi i) 70 then Some sell else None;
     trend :=
       if Js.gtb (line (macd i)) (signal (macd i)) && Js.gtb (histogram (macd i)) 0
       then Some buy
       else if (line (macd i) <? signal (macd i)) && (histogram (macd i) <? 0)
       then Some sell else None;
     alignment :=
       if Js.gtb (ema12 (movingAverages i)) (ema26 (movingAverages i))
       then Some buy
       else if ema12 (movingAverages i) <? ema26 (movingAverages i)
       then Some sell else None;
     confirmation := Js.gtb (volume i) 500000;
     dampening := Js.gtb (volatility i) 0.3 |}.

(** The first rule that fires sets the bias; [hold] if none does. *)
Definition bias (f : Firing) : Action :=
  match momentum f, trend f, alignment f with
  | Some a, _, _ => a
  | None, Some a, _ => a
  | None, None, Some a => a
  | None, None, None => hold
  end.

Definition add_if (fires : bool) (c w : float) : float :=
  if fires then c + w else c.

Definition is_some {A} (o : option A) : bool :=
  match o with Some _ => true | None => false end.

(** The fixed contributions 0.30, 0.25, 0.20 and 0.15, summed in rule
    order, then multiplied by 0.8 under high volatility. *)
Definition accumulated (f : Firing) : float :=
  let c := add_if (is_some (momentum f)) 0 0.3 in
  let c := add_if (is_some (trend f)) c 0.25 in
  let c := add_if (is_some (alignment f)) c 0.2 in
  let c := add_if (confirmation f) c 0.15 in
  if dampening f then c * 0.8 else c.

(** Clamped to at most 1 and rounded to two decimals. *)
Definition score (f : Firing) : float :=
  Js.Math_round (Js.Math_min (accumulated f) 1 * 100) / 100.

Definition phrase (o : option Action) (bull bear : string) : string :=
  match o with
  | Some buy => bull
  | Some _ => bear
  | None => EmptyString
  end.

(** The phrases of the fired rules, in rule order. *)
Definition rationale (f : Firing) : string :=
  Str.trim
    (phrase (momentum f) "RSI oversold. " "RSI overbought. "
     ++ phrase (trend f) "MACD bullish crossover. " "MACD bearish crossover. "
     ++ phrase (alignment f) "EMA bullish alignment. " "EMA bearish alignment. "
     ++ (if confirmation f then "High volume confirmation. " else EmptyString)
     ++ (if dampening f then "High volatility detected. " else EmptyString))%string.

(** A number with two decimals between 0 and 1: [k / 100] for an integer
    [0 <= k <= 100]. *)
Definition TwoDecimals (c : float) : Prop :=
  exists k : Z, (0 <= k <= 100)%Z /\ c = Js.of_Z k / 100.

End SignalEngine.

(** ** A concrete world

    A deterministic instance of the capabilities, on which the general
    statements are run: the clock advances one second per reading, the
    random source cycles through the eighths, every capability answers. *)

Module Demo.

Record World := { clock : Z; draws : nat }.

Definition builtins : Builtins :=
  {| Number_toString := fun _ => "<number>";
     Number_toFixed := fun _ _ => "<fixed>";
     parseFloat := fun _ => 1%float;
     Date_toISOString := fun _ => "<date>" |}.

(** The quote every request is answered with: a price impact of 2. *)
Definition quote : Quote := {| amountOut := "1"; quote_priceImpact := 2 |}.

Definition capabilities : Capabilities World unit :=
  {| Math_random := fun w =>
       ((Js.of_Z (Z.of_nat (draws w mod 8)) / 8)%float,
        {| clock := clock w; draws := S (draws w) |});
     Date_now := fun w =>
       (clock w, {| clock := clock w + 1000; draws := draws w |});
     getMarketData := fun _ w => (Ret tt, w);
     getPortfolioBalance := fun w => (Ret {| totalBalance := 10000 |}, w);
     getTradeQuote := fun _ _ _ w => (Ret quote, w);
     executeTrade := fun _ _ _ _ w => (Ret "0xfeed", w);
     apiClient_post := fun _ _ _ _ w => (Ret tt, w);
     agent_execute := fun _ w => (Ret {| text := "Strong BUY signal" |}, w);
     price := fun _ => 1%float |}.

Definition start : St World :=
  {| world := {| clock := 1000000; draws := 2 |}; trace := [] |}.

(** An oversold, bullish, high-volume, calm snapshot. *)
Definition bullish : TechnicalIndicators :=
  {| rsi := 20;
     macd := {| line := 0.5; signal := 0.1; histogram := 0.4 |};
     movingAverages :=
       {| sma20 := 100; sma50 := 100; ema12 := 120; ema26 := 110 |};
     volume := 600000;
     volatility := 0.1 |}.

(** A snapshot on which no rule fires. *)
Definition quiet : TechnicalIndicators :=
  {| rsi := 50;
     macd := {| line := 0; signal := 0; histogram := 0 |};
     movingAverages :=
       {| sma20 := 100; sma50 := 100; ema12 := 100; ema26 := 100 |};
     volume := 1000;
     volatility := 0.1 |}.

End Demo.

(** ** [tools/trading-tools.ts], continued: [monitorTrade] *)

Module TradeMonitor.

Open Scope float_scope.

(** The object [monitorTrade.execute] returns. *)
Record Monitoring :=
  { tradeId : string;
    pnlPercentage : float;
    recommendation : string;
    reason : string;
    currentPrice : float;
    entryPrice : float }.

(** [ToBoolean] on a number: false for NaN, +0 and -0. *)
Definition ToBoolean (x : float) : bool :=
  negb (PrimFloat.is_nan x || PrimFloat.is_zero x).

(** [x && p x] for an optional number [x] ([undefined] when absent). *)
Definition and_then (x : option float) (p : float -> bool) : bool :=
  match x with
  | Some v => ToBoolean v && p v
  | None => false
  end.

(** [monitorTrade.execute({ tradeId, entryPrice, currentPrice, stopLoss,
    takeProfit })]; it calls no capability and has no [throw]. *)
Definition monitorTrade (tradeId : string) (entryPrice currentPrice : float)
    (stopLoss takeProfit : option float) : Monitoring :=
  let pnlPercentage := ((currentPrice - entryPrice) / entryPrice) * 100 in
  let recommendation := "hold"%string in
  let reason := "Trade within normal parameters"%string in
  let '(recommendation, reason) :=
    if and_then stopLoss (fun stopLoss => currentPrice <=? stopLoss) then
      ("close", "Stop loss triggered")%string
    else if and_then takeProfit (fun takeProfit => takeProfit <=? currentPrice)
    then ("close", "Take profit target reached")%string
    else if Js.gtb pnlPercentage 20 then
      ("partial_close", "Consider taking partial profits")%string
    else if pnlPercentage <? -10 then
      ("review", "Trade showing significant loss, review strategy")%string
    else (recommendation, reason) in
  {| tradeId := tradeId;
     pnlPercentage := pnlPercentage;
     recommendation := recommendation;
     reason := reason;
     currentPrice := currentPrice;
     entryPrice := entryPrice |}.

End TradeMonitor.

(** ** [memory/trading-memory.ts] and [services/recall-service.ts],
    continued: the queries *)

Module Ledger.

Open Scope float_scope.

(** The [data] of a memory as the queries read it: every field they touch,
    each possibly [undefined]. *)
Record Data :=
  { data_type : option string;
    data_timestamp : option string;
    data_symbol : option string;
    data_action : option string;
    data_signal : option Decision;
    data_indicators : option TechnicalIndicators;
    data_result : option TradeResult;
    data_notes : option string;
    data_insight : option string;
    data_confidence : option float }.

(** The payload handed to [RecallMemory.store], as such a [data]. *)
Definition to_data (m : MemoryData) : Data :=
  match m with
  | trading_decision timestamp symbol action signal indicators result notes =>
      {| data_type := Some "trading_decision"%string;
         data_timestamp := Some timestamp;
         data_symbol := Some symbol;
         data_action := Some action;
         data_signal := signal;
         data_indicators := indicators;
         data_result := result;
         data_notes := notes;
         data_insight := None;
         data_confidence := None |}
  | market_insight timestamp symbol insight confidence =>
      {| data_type := Some "market_insight"%string;
         data_timestamp := Some timestamp;
         data_symbol := Some symbol;
         data_action := None;
         data_signal := None;
         data_indicators := None;
         data_result := None;
         data_notes := None;
         data_insight := Some insight;
         data_confidence := Some confidence |}
  end.

(** [{ query, filters: { type, symbol? }, limit }]. *)
Record SearchParams :=
  { query : string;
    filter_type : string;
    filter_symbol : option string;
    limit : Z }.

(** The search endpoint of the HTTP client, and [new Date(string)] of the
    runtime ([None] is an invalid date). *)
Class SearchCapability (World : Type) :=
  { apiClient_search :
      SearchParams -> World -> outcome (list Data) * World;
    Date_parse : string -> option Z }.

(** What [getTradingHistory] maps a memory to. *)
Record HistoryEntry :=
  { history_timestamp : option Z;
    history_symbol : option string;
    history_action : option string;
    history_signal : option Decision;
    history_indicators : option TechnicalIndicators;
    history_result : option TradeResult;
    history_notes : option string }.

(** What [getMarketInsights] maps a memory to. *)
Record Insight :=
  { insight_timestamp : option Z;
    insight_text : option string;
    insight_confidence : option float }.

(** What [getPerformanceAnalytics] returns; the two counts are array
    lengths. *)
Record Analytics :=
  { totalTrades : nat;
    profitableTrades : nat;
    winRate : float;
    totalProfit : float;
    averageProfit : float }.

(** [m.data.result?.executed]. *)
Definition was_executed (m : Data) : bool :=
  match data_result m with
  | Some r => result_executed r
  | None => false
  end.

(** [t.data.result?.profit || 0]. *)
Definition profit_or_zero (t : Data) : float :=
  match data_result t with
  | Some r =>
      match result_profit r with
      | Some v => if TradeMonitor.ToBoolean v then v else 0
      | None => 0
      end
  | None => 0
  end.

(** A count as a number. *)
Definition count (n : nat) : float := Js.of_Z (Z.of_nat n).

(** The body of [getPerformanceAnalytics] after the search. *)
Definition summarize (memories : list Data) : Analytics :=
  let trades := filter was_executed memories in
  let totalTrades := List.length trades in
  let profitableTrades :=
    List.length (filter (fun t => Js.gtb (profit_or_zero t) 0) trades) in
  let totalProfit :=
    fold_left (fun sum t => sum + profit_or_zero t) trades 0 in
  {| totalTrades := totalTrades;
     profitableTrades := profitableTrades;
     winRate :=
       if Js.gtb (count totalTrades) 0
       then (count profitableTrades / count totalTrades) * 100 else 0;
     totalProfit := totalProfit;
     averageProfit :=
       if Js.gtb (count totalTrades) 0
       then totalProfit / count totalTrades else 0 |}.

Section Queries.

Context {World : Type} {S : SearchCapability World}.

(** [new Date(value)] for a possibly missing string. *)
Definition new_Date (value : option string) : option Z :=
  match value with
  | Some s => Date_parse s
  | None => None
  end.

(** [RecallMemory.search(params)]: one POST to ['/search'], whose failure
    is rethrown as a new [Error].  (Searches are not entered in the trace,
    which records the tools, the writes and the agent.) *)
Definition search (params : SearchParams) : M World (list Data) :=
  try_catch
    (fun st =>
       let (r, w) := apiClient_search params (world st) in
       (r, {| world := w; trace := trace st |}))
    (fun error =>
       throw (Error ("Failed to search memories: " ++ error_toString error))).

(** The arrow function [getTradingHistory] maps over the memories. *)
Definition to_history (memory : Data) : HistoryEntry :=
  {| history_timestamp := new_Date (data_timestamp memory);
     history_symbol := data_symbol memory;
     history_action := data_action memory;
     history_signal := data_signal memory;
     history_indicators := data_indicators memory;
     history_result := data_result memory;
     history_notes := data_notes memory |}.

(** [getTradingHistory(symbol, limit = 10)]. *)
Definition getTradingHistory (symbol : string) (limit : option Z)
  : M World (list HistoryEntry) :=
  let limit := match limit with Some l => l | None => 10%Z end in
  memories <- search {| query := "trading decisions for " ++ symbol;
                        filter_type := "trading_decision";
                        filter_symbol := Some symbol;
                        limit := limit |} ;;
  ret (map to_history memories).

(** [getPerformanceAnalytics(symbol?)]; an empty [symbol] is falsy and
    sets no filter. *)
Definition getPerformanceAnalytics (symbol : option string)
  : M World Analytics :=
  let filters_symbol :=
    match symbol with
    | Some s => if String.eqb s EmptyString then None else Some s
    | None => None
    end in
  memories <- search {| query := "trading performance analytics";
                        filter_type := "trading_decision";
                        filter_symbol := filters_symbol;
                        limit := 100 |} ;;
  ret (summarize memories).

(** [getMarketInsights(symbol, limit = 5)]. *)
Definition getMarketInsights (symbol : string) (limit : option Z)
  : M World (list Insight) :=
  let limit := match limit with Some l => l | None => 5%Z end in
  memories <- search {| query := "market insights for " ++ symbol;
                        filter_type := "market_insight";
                        filter_symbol := Some symbol;
                        limit := limit |} ;;
  ret (map (fun memory =>
              {| insight_timestamp := new_Date (data_timestamp memory);
                 insight_text := data_insight memory;
                 insight_confidence := data_confidence memory |})
           memories).

End Queries.

End Ledger.

(** ** Vocabulary of the properties *)

(** Classes of binary64 values, on their specification [spec_float]. *)

Module SF.

Definition SFis_nan (x : spec_float) : bool :=
  match x with S754_nan => true | _ => false end.

(** Zero of either sign, or sign bit clear: [0 <= x]. *)
Definition SFnonneg (x : spec_float) : bool :=
  match x with
  | S754_zero _ => true
  | S754_infinity s | S754_finite s _ _ => negb s
  | S754_nan => false
  end.

(** Sign bit clear. *)
Definition SFplus (x : spec_float) : bool :=
  match x with
  | S754_zero s | S754_infinity s | S754_finite s _ _ => negb s
  | S754_nan => false
  end.

End SF.

(** Observations on signals, traces and workflow runs. *)

Module Obs.

Open Scope float_scope.

(** A decision procedure for [SignalEngine.TwoDecimals]. *)
Definition two_decimalsb (c : float) : bool :=
  existsb (fun k => PrimFloat.Leibniz.eqb c (Js.of_Z (Z.of_nat k) / 100))
          (seq 0 101).

(** No entry of a trace is a call of the trade-execution capability. *)
Definition no_trade_submitted (t : list Event) : Prop :=
  forall tokenIn tokenOut amountIn minAmountOut,
    ~ In (EvExecuteTrade tokenIn tokenOut amountIn minAmountOut) t.

(** No entry of a trace is a request for a quote. *)
Definition no_quote_requested (t : list Event) : Prop :=
  forall tokenIn tokenOut amountIn,
    ~ In (EvGetTradeQuote tokenIn tokenOut amountIn) t.

(** The three steps that follow [MarketAnalysis]. *)
Definition after_analysis {World MarketData : Type} {B : Builtins}
    {caps : Capabilities World MarketData} (a : TradingWorkflow.Analysis MarketData)
  : M World Report :=
  decision <- TradingWorkflow.DecisionMaking a ;;
  executionResult <- TradingWorkflow.TradeExecution decision ;;
  TradingWorkflow.PostTradeAnalysis executionResult.

(** The call that asks the agent to carry out a trading decision. *)
Definition is_decision (ev : Event) : bool :=
  match ev with
  | EvAgentExecute (DecisionPrompt _ _ _) => true
  | _ => false
  end.

End Obs.

(** Further vocabulary, for the properties of the code beyond the claims. *)

Module Measures.

Open Scope float_scope.

(** A finite number above zero, on the specification. *)
Definition SFfinite_plus (x : spec_float) : bool :=
  match x with S754_finite false _ _ => true | _ => false end.

(** A zero of either sign, or NaN. *)
Definition SFzero_or_nan (x : spec_float) : bool :=
  match x with S754_zero _ | S754_nan => true | _ => false end.

(** How many of the four additive rules fire. *)
Definition fired_count (f : SignalEngine.Firing) : nat :=
  (if SignalEngine.is_some (SignalEngine.momentum f) then 1 else 0)
  + (if SignalEngine.is_some (SignalEngine.trend f) then 1 else 0)
  + (if SignalEngine.is_some (SignalEngine.alignment f) then 1 else 0)
  + (if SignalEngine.confirmation f then 1 else 0).

(** A quote request or a trade submission. *)
Definition is_trade_call (ev : Event) : bool :=
  match ev with
  | EvGetTradeQuote _ _ _ | EvExecuteTrade _ _ _ _ => true
  | _ => false
  end.

(** A write to the memory store. *)
Definition is_store (ev : Event) : bool :=
  match ev with
  | EvMemoryStore _ _ => true
  | _ => false
  end.

(** The [executed] flag of a stored trading decision. *)
Definition stored_executed (ev : Event) : option bool :=
  match ev with
  | EvMemoryStore _ (trading_decision _ _ _ _ _ (Some r) _) =>
      Some (result_executed r)
  | _ => None
  end.

(** The stop-loss or take-profit level is absent or strictly on the far
    side of the current price. *)
Definition strictly_below (level : option float) (price : float) : Prop :=
  match level with
  | Some l => (l <? price) = true
  | None => True
  end.

Definition strictly_above (level : option float) (price : float) : Prop :=
  match level with
  | Some l => (price <? l) = true
  | None => True
  end.

(** The win rate of [p] profitable trades out of [t], as
    [getPerformanceAnalytics] computes it. *)
Definition win_rate (p t : nat) : float :=
  if Js.gtb (Ledger.count t) 0
  then (Ledger.count p / Ledger.count t) * 100 else 0.

(** [win_rate] is within [0, 100] for every [p <= t <= n]. *)
Definition win_rates_bounded (n : nat) : bool :=
  forallb (fun t =>
             forallb (fun p => (0 <=? win_rate p t) && (win_rate p t <=? 100))
                     (seq 0 (S t)))
          (seq 0 (S n)).

(** The search [getPerformanceAnalytics] makes. *)
Definition analytics_params (symbol : option string) : Ledger.SearchParams :=
  {| Ledger.query := "trading performance analytics";
     Ledger.filter_type := "trading_decision";
     Ledger.filter_symbol :=
       match symbol with
       | Some s => if String.eqb s EmptyString then None else Some s
       | None => None
       end;
     Ledger.limit := 100 |}.

End Measures.

(** A second concrete world: the memory service can be switched off, the
    agent can refuse decisions, and dates print as their milliseconds. *)

Module Demo2.

Definition builtins : Builtins :=
  {| Number_toString := fun _ => "<number>";
     Number_toFixed := fun _ _ => "<fixed>";
     parseFloat := fun _ => 1%float;
     Date_toISOString := Str.of_Z |}.

(** As [Demo.capabilities], with the memory service answering [memory_up]
    and the agent answering decision prompts by [decision]. *)
Definition capabilities (memory_up : bool) (decision : outcome AgentResponse)
  : Capabilities Demo.World unit :=
  {| Math_random := Math_random (Capabilities := Demo.capabilities);
     Date_now := Date_now (Capabilities := Demo.capabilities);
     getMarketData := getMarketData (Capabilities := Demo.capabilities);
     getPortfolioBalance :=
       getPortfolioBalance (Capabilities := Demo.capabilities);
     getTradeQuote := getTradeQuote (Capabilities := Demo.capabilities);
     executeTrade := executeTrade (Capabilities := Demo.capabilities);
     apiClient_post := fun _ _ _ _ w =>
       (if memory_up then Ret tt else Throw (Error "Network Error"), w);
     agent_execute := fun p w =>
       (match p with
        | AnalysisPrompt _ => Ret {| text := "Strong BUY signal" |}
        | DecisionPrompt _ _ _ => decision
        end, w);
     price := price (Capabilities := Demo.capabilities) |}.

(** Market data is unavailable. *)
Definition offline : Capabilities Demo.World unit :=
  {| Math_random := Math_random (Capabilities := Demo.capabilities);
     Date_now := Date_now (Capabilities := Demo.capabilities);
     getMarketData := fun _ w => (Throw (Error "timeout"), w);
     getPortfolioBalance :=
       getPortfolioBalance (Capabilities := Demo.capabilities);
     getTradeQuote := getTradeQuote (Capabilities := Demo.capabilities);
     executeTrade := executeTrade (Capabilities := Demo.capabilities);
     apiClient_post := apiClient_post (Capabilities := Demo.capabilities);
     agent_execute := agent_execute (Capabilities := Demo.capabilities);
     price := price (Capabilities := Demo.capabilities) |}.

(** Decimal digits back to the milliseconds. *)
Definition parse_millis (s : string) : option Z :=
  match NilZero.int_of_string s with
  | Some i => Some (Z.of_int i)
  | None => None
  end.

(** A store that answers every search with the records it is given, up
    to the limit asked for. *)
Definition search_in (records : list Ledger.Data)
  : Ledger.SearchCapability Demo.World :=
  {| Ledger.apiClient_search := fun params w =>
       (Ret (firstn (Z.to_nat (Ledger.limit params)) records), w);
     Ledger.Date_parse := parse_millis |}.

(** Four executed trades with profits 10, -5, 20 and 0, and one decision
    that was not executed. *)
Definition decided (executed : bool) (profit : option float) : Ledger.Data :=
  Ledger.to_data
    (trading_decision "1000" "ETH/USDC" "buy" None None
       (Some {| result_executed := executed; result_price := None;
                result_amount := None; result_profit := profit |})
       None).

Definition history : list Ledger.Data :=
  [decided true (Some 10%float); decided true (Some (-5)%float);
   decided false (Some 1000%float); decided true (Some 20%float);
   decided true (Some 0%float)].

End Demo2.

(* ================================================================== *)
(** * Part II: properties *)
(* ================================================================== *)

(** ** The runtime functions on small inputs *)

Module RuntimeExamples.

Open Scope float_scope.

Example Math_round_ties :
  Js.Math_round 2.5 = 3 /\ Js.Math_round (-2.5) = -2
  /\ Js.Math_round 0.49999999999999994 = 0
  /\ Js.Math_round (-0.2) = neg_zero
  /\ Js.Math_round 89.99999999999999 = 90
  /\ Js.Math_round nan = nan /\ Js.Math_round infinity = infinity.
Proof. repeat split; reflexivity. Qed.

Example Math_min_special :
  Js.Math_min 1 2 = 1 /\ Js.Math_min 2 1 = 1
  /\ Js.Math_min 0 neg_zero = neg_zero /\ Js.Math_min neg_zero 0 = neg_zero
  /\ Js.Math_min nan 1 = nan /\ Js.Math_min infinity 5000 = 5000.
Proof. repeat split; reflexivity. Qed.

Example split_symbol :
  Str.split "/" "ETH/USDC" = ["ETH"; "USDC"]%string
  /\ Str.split "/" "ETHUSDC" = ["ETHUSDC"]%string
  /\ Str.split "/" "a/b/" = ["a"; "b"; EmptyString]%string.
Proof. repeat split; reflexivity. Qed.

Example includes_lowered :
  Str.includes "buy" (Str.toLowerCase "Strong BUY signal") = true
  /\ Str.includes "sell" (Str.toLowerCase "Strong BUY signal") = false
  /\ Str.trim "RSI oversold. " = "RSI oversold."%string.
Proof. repeat split; reflexivity. Qed.

End RuntimeExamples.

(** ** Facts about binary64 comparison, multiplication and division *)

Module FloatFacts.

Import SF.

Open Scope float_scope.

Ltac sign_facts :=
  repeat match goal with
         | H : negb ?s = true |- _ => apply negb_true_iff in H; subst s
         end.

Lemma SFcompare_antisym (x y : spec_float) :
  SFcompare y x = option_map CompOpp (SFcompare x y).
Proof.
  destruct x as [sx|sx| |sx mx ex], y as [sy|sy| |sy my ey]; simpl;
    try reflexivity;
    try (destruct sx; reflexivity);
    try (destruct sy; reflexivity);
    try (destruct sx, sy; reflexivity).
  destruct sx, sy; simpl; try reflexivity;
    rewrite (Z.compare_antisym ex ey);
    destruct (ex ?= ey)%Z; simpl; try reflexivity;
    pose proof (Pos.compare_cont_antisym mx my Eq) as H; simpl in H;
    rewrite <- H; destruct (Pos.compare_cont Eq mx my); reflexivity.
Qed.

Lemma SFcompare_some (x y : spec_float) :
  SFis_nan x = false -> SFis_nan y = false -> exists c, SFcompare x y = Some c.
Proof. destruct x, y; simpl; try discriminate; eauto. Qed.

Lemma is_nan_spec (x : float) : PrimFloat.is_nan x = SFis_nan (Prim2SF x).
Proof.
  unfold PrimFloat.is_nan. rewrite eqb_spec. unfold SFeqb.
  destruct (Prim2SF x) as [s|s| |s m e]; simpl; try reflexivity.
  - destruct s; reflexivity.
  - destruct s; rewrite Z.compare_refl, Pos.compare_cont_refl; reflexivity.
Qed.

Lemma ltb_asym (a b : float) : (a <? b) = true -> (b <? a) = false.
Proof.
  rewrite !ltb_spec. unfold SFltb.
  rewrite (SFcompare_antisym (Prim2SF a) (Prim2SF b)).
  destruct (SFcompare (Prim2SF a) (Prim2SF b)) as [[]|]; simpl; congruence.
Qed.

Lemma leb_not_ltb (a b : float) : (a <=? b) = true -> (b <? a) = false.
Proof.
  rewrite ltb_spec, leb_spec. unfold SFltb, SFleb.
  rewrite (SFcompare_antisym (Prim2SF a) (Prim2SF b)).
  destruct (SFcompare (Prim2SF a) (Prim2SF b)) as [[]|]; simpl; congruence.
Qed.

Lemma leb_refl (x : float) : PrimFloat.is_nan x = false -> (x <=? x) = true.
Proof.
  rewrite is_nan_spec, leb_spec. unfold SFleb.
  destruct (Prim2SF x) as [s|s| |s m e]; simpl; try discriminate; intros _;
    destruct s; try reflexivity;
    rewrite Z.compare_refl, Pos.compare_cont_refl; reflexivity.
Qed.

Lemma not_ltb_leb (a b : float) :
  PrimFloat.is_nan a = false -> PrimFloat.is_nan b = false ->
  (b <? a) = false -> (a <=? b) = true.
Proof.
  rewrite !is_nan_spec, ltb_spec, leb_spec. unfold SFltb, SFleb. intros Ha Hb.
  rewrite (SFcompare_antisym (Prim2SF a) (Prim2SF b)).
  destruct (SFcompare_some _ _ Ha Hb) as [c ->]. destruct c; simpl; congruence.
Qed.

Lemma leb_zero_spec (x : float) : (0 <=? x) = SFnonneg (Prim2SF x).
Proof.
  rewrite leb_spec. change (Prim2SF 0) with (S754_zero false).
  destruct (Prim2SF x) as [s|s| |s m e]; simpl; try reflexivity;
    destruct s; reflexivity.
Qed.

Lemma ltb_zero_plus (x : float) : (0 <? x) = true -> SFplus (Prim2SF x) = true.
Proof.
  rewrite ltb_spec. change (Prim2SF 0) with (S754_zero false).
  unfold SFltb.
  destruct (Prim2SF x) as [s|s| |s m e]; try destruct s; simpl;
    intros; try discriminate; reflexivity.
Qed.

(** Rounding keeps the sign it is given. *)
Lemma binary_round_aux_sign (s : bool) (m e : Z) (l : location) :
  match binary_round_aux prec emax s m e l with
  | S754_nan => True
  | S754_zero s' | S754_infinity s' | S754_finite s' _ _ => s' = s
  end.
Proof.
  unfold binary_round_aux.
  destruct (shr_fexp prec emax m e l) as [mrs' e'].
  destruct (shr_fexp prec emax _ e' loc_Exact) as [mrs'' e''].
  destruct (shr_m mrs''); auto.
  destruct (Z.leb e'' _); auto.
Qed.

Lemma SFplus_round (m e : Z) (l : location) :
  SFis_nan (binary_round_aux prec emax false m e l) = false ->
  SFplus (binary_round_aux prec emax false m e l) = true.
Proof.
  pose proof (binary_round_aux_sign false m e l) as H.
  destruct (binary_round_aux prec emax false m e l); simpl; intros; subst;
    try reflexivity; discriminate.
Qed.

Lemma SFplus_nonneg (x : spec_float) : SFplus x = true -> SFnonneg x = true.
Proof. destruct x; simpl; auto. Qed.

Lemma SFmul_nonneg (x y : spec_float) :
  SFnonneg x = true -> SFnonneg y = true ->
  SFis_nan (SF64mul x y) = false -> SFnonneg (SF64mul x y) = true.
Proof.
  unfold SF64mul.
  destruct x as [sx|sx| |sx mx ex], y as [sy|sy| |sy my ey]; simpl;
    intros Hx Hy Hn; try discriminate; try reflexivity; sign_facts;
    try reflexivity.
  now apply SFplus_nonneg, SFplus_round.
Qed.

Lemma SFdiv_nonneg (x y : spec_float) :
  SFnonneg x = true -> SFplus y = true ->
  SFis_nan (SF64div x y) = false -> SFnonneg (SF64div x y) = true.
Proof.
  unfold SF64div.
  destruct x as [sx|sx| |sx mx ex], y as [sy|sy| |sy my ey]; simpl;
    intros Hx Hy Hn; try discriminate; try reflexivity; sign_facts;
    try reflexivity.
  simpl in *.
  destruct (SFdiv_core_binary prec emax (Zpos mx) ex (Zpos my) ey) as [[mz ez] lz].
  now apply SFplus_nonneg, SFplus_round.
Qed.

Lemma SFdiv_plus (x y : spec_float) :
  SFplus x = true -> SFplus y = true ->
  SFis_nan (SF64div x y) = false -> SFplus (SF64div x y) = true.
Proof.
  unfold SF64div.
  destruct x as [sx|sx| |sx mx ex], y as [sy|sy| |sy my ey]; simpl;
    intros Hx Hy Hn; try discriminate; try reflexivity; sign_facts;
    try reflexivity.
  simpl in *.
  destruct (SFdiv_core_binary prec emax (Zpos mx) ex (Zpos my) ey) as [[mz ez] lz].
  now apply SFplus_round.
Qed.

(** A product or quotient that is a number has operands that are numbers. *)
Lemma SFmul_operands (x y : spec_float) :
  SFis_nan (SF64mul x y) = false -> SFis_nan x = false /\ SFis_nan y = false.
Proof. destruct x, y; simpl; auto. Qed.

Lemma SFdiv_operands (x y : spec_float) :
  SFis_nan (SF64div x y) = false -> SFis_nan x = false /\ SFis_nan y = false.
Proof. destruct x, y; simpl; auto. Qed.

(** [Math.min] returns NaN or one of its arguments. *)
Lemma Math_min_cases (a b : float) :
  (PrimFloat.is_nan a || PrimFloat.is_nan b = true /\ Js.Math_min a b = nan)
  \/ (PrimFloat.is_nan a = false /\ PrimFloat.is_nan b = false
      /\ Js.Math_min a b = b)
  \/ (PrimFloat.is_nan a = false /\ PrimFloat.is_nan b = false
      /\ (b <? a) = false /\ Js.Math_min a b = a).
Proof.
  unfold Js.Math_min.
  destruct (PrimFloat.is_nan a) eqn:Ha, (PrimFloat.is_nan b) eqn:Hb; simpl; auto.
  destruct (b <? a) eqn:Hlt; simpl; auto.
  destruct (Js.is_neg_zero b && Js.is_pos_zero a); auto 6.
Qed.

End FloatFacts.

(** ** The Signal Engine: [generateSignal] *)

Module SignalProps.

Import TradingTools SignalEngine Obs.

Open Scope float_scope.

Lemma two_decimalsb_sound (c : float) :
  two_decimalsb c = true -> TwoDecimals c.
Proof.
  unfold two_decimalsb. intros H.
  apply existsb_exists in H. destruct H as [k [Hin Heq]].
  apply in_seq in Hin. apply FloatAxioms.Leibniz.eqb_spec in Heq.
  exists (Z.of_nat k). split; [lia | exact Heq].
Qed.

Ltac split_rule :=
  match goal with
  | |- context [if (?a <? ?b) && (?c <? ?d) then _ else _] =>
      destruct ((a <? b) && (c <? d))
  | |- context [if ?a <? ?b then _ else _] => destruct (a <? b)
  end; cbv beta iota zeta.

Ltac draw_randoms :=
  repeat match goal with
         | |- context [Math_random ?w] => destruct (Math_random w)
         end.

Section Generic.

Context {World MarketData : Type} {caps : Capabilities World MarketData}.

(** [generateSignal] never throws and makes no capability call; its
    action, confidence and reason are the verdict of the specification's
    rules; [suggestedAmount] is present exactly when the action is not
    [hold], [targetPrice] and [stopLoss] exactly when it is [buy]. *)
Lemma generateSignal_refines (i : TechnicalIndicators) (st : St World) :
  exists s st',
    generateSignal i st = (Ret s, st')
    /\ trace st' = trace st
    /\ action s = bias (firing i)
    /\ confidence s = score (firing i)
    /\ reason s = rationale (firing i)
    /\ is_some (suggestedAmount s) = negb (Action_eqb (action s) hold)
    /\ is_some (targetPrice s) = Action_eqb (action s) buy
    /\ is_some (stopLoss s) = Action_eqb (action s) buy.
Proof.
  unfold generateSignal, firing, bias, score, accumulated, rationale, Js.gtb.
  destruct i as [r [l s h] [s20 s50 e12 e26] v vol].
  cbv beta iota zeta delta
    [rsi macd line signal histogram movingAverages ema12 ema26 volume
     volatility momentum trend alignment confirmation dampening].
  repeat split_rule;
    cbn [andb orb negb Action_eqb is_some add_if phrase];
    unfold bind, ret, ask; cbn [world trace];
    draw_randoms; cbn [world trace];
    do 2 eexists; (split; [reflexivity|]);
    cbn [action confidence reason suggestedAmount targetPrice stopLoss
         is_some Action_eqb negb];
    repeat split; reflexivity.
Qed.

End Generic.

(** Whatever rules fire, the score is a two-decimal number in [0, 1]. *)
Lemma score_bounds (f : Firing) :
  (0 <=? score f) = true /\ (score f <=? 1) = true /\ TwoDecimals (score f).
Proof.
  destruct f as [[m|] [t|] [a|] [|] [|]];
    (split; [|split]); try apply two_decimalsb_sound; vm_compute; reflexivity.
Qed.

Section Claims.

Context {World MarketData : Type} {caps : Capabilities World MarketData}.

(** C6: for every indicator snapshot (and whatever the random source
    answers), [generateSignal] returns a signal whose confidence satisfies
    [0 <= confidence <= 1] and is a two-decimal number [k / 100]. *)
Theorem generateSignal_confidence_bounded
    (i : TechnicalIndicators) (st : St World) :
  exists s st',
    generateSignal i st = (Ret s, st')
    /\ (0 <=? confidence s) = true
    /\ (confidence s <=? 1) = true
    /\ TwoDecimals (confidence s).
Proof.
  destruct (generateSignal_refines i st) as (s & st' & Hrun & _ & _ & Hc & _).
  exists s, st'. rewrite Hc. split; [exact Hrun | apply score_bounds].
Qed.

(** C7: on a snapshot with rsi = 20, MACD line above its signal with a
    positive histogram, ema12 above ema26, volume above 500000 and
    volatility below 0.3, [generateSignal] returns action [buy] with
    confidence 0.9. *)
Theorem generateSignal_all_bullish
    (i : TechnicalIndicators) (st : St World) :
  rsi i = 20 ->
  Js.gtb (line (macd i)) (signal (macd i)) = true ->
  Js.gtb (histogram (macd i)) 0 = true ->
  Js.gtb (ema12 (movingAverages i)) (ema26 (movingAverages i)) = true ->
  Js.gtb (volume i) 500000 = true ->
  (volatility i <? 0.3) = true ->
  exists s st',
    generateSignal i st = (Ret s, st')
    /\ action s = buy
    /\ confidence s = 0.9.
Proof.
  intros Hrsi Hmacd Hhist Hema Hvol Hcalm.
  destruct (generateSignal_refines i st) as (s & st' & Hrun & _ & Ha & Hc & _).
  exists s, st'. split; [exact Hrun|].
  assert (Hf : firing i =
               {| momentum := Some buy; trend := Some buy;
                  alignment := Some buy; confirmation := true;
                  dampening := false |}).
  { unfold firing. rewrite Hrsi, Hmacd, Hhist, Hema, Hvol.
    unfold Js.gtb. rewrite (FloatFacts.ltb_asym Hcalm). reflexivity. }
  rewrite Ha, Hc, Hf. split; reflexivity.
Qed.

(** C2, as amended: two calls of [generateSignal] on the same snapshot, in
    any two states of the world, both return, with the same action, the
    same confidence and the same reason, and with the same optional fields
    present: the suggested amount exactly when the action is not [hold],
    the target price and the stop-loss exactly when it is [buy].  When the
    action is [hold] the two signals are identical.  (The values of the
    optional fields are fresh [Math.random()] draws.) *)
Theorem generateSignal_verdict_deterministic
    (i : TechnicalIndicators) (st1 st2 : St World) :
  exists s1 s2 st1' st2',
    generateSignal i st1 = (Ret s1, st1')
    /\ generateSignal i st2 = (Ret s2, st2')
    /\ action s1 = action s2
    /\ confidence s1 = confidence s2
    /\ reason s1 = reason s2
    /\ is_some (suggestedAmount s1) = negb (Action_eqb (action s1) hold)
    /\ is_some (suggestedAmount s2) = negb (Action_eqb (action s1) hold)
    /\ is_some (targetPrice s1) = Action_eqb (action s1) buy
    /\ is_some (targetPrice s2) = Action_eqb (action s1) buy
    /\ is_some (stopLoss s1) = Action_eqb (action s1) buy
    /\ is_some (stopLoss s2) = Action_eqb (action s1) buy
    /\ (action s1 = hold -> s1 = s2).
Proof.
  destruct (generateSignal_refines i st1)
    as (s1 & st1' & R1 & _ & A1 & C1 & T1 & O1 & P1 & Q1).
  destruct (generateSignal_refines i st2)
    as (s2 & st2' & R2 & _ & A2 & C2 & T2 & O2 & P2 & Q2).
  exists s1, s2, st1', st2'.
  assert (Ha : action s1 = action s2) by congruence.
  rewrite <- Ha in O2, P2, Q2.
  repeat (split; [congruence|]).
  intros Hh. rewrite Hh in O1, P1, Q1, O2, P2, Q2.
  destruct s1 as [a1 c1 r1 [x1|] [y1|] [z1|]], s2 as [a2 c2 r2 [x2|] [y2|] [z2|]];
    simpl in *; try discriminate; congruence.
Qed.

End Claims.

(** C2, the claim as stated fails: in the demonstration world two
    successive calls on the same bullish snapshot return different signals
    (the suggested amounts are 350 and 725). *)
Lemma generateSignal_repeat_differs :
  fst (generateSignal (caps := Demo.capabilities) Demo.bullish Demo.start)
  <> fst (generateSignal (caps := Demo.capabilities) Demo.bullish
            (snd (generateSignal (caps := Demo.capabilities)
                    Demo.bullish Demo.start))).
Proof.
  intros H.
  apply (f_equal
           (fun r => match r with
                     | Ret s => match suggestedAmount s with
                                | Some x => x <? 500
                                | None => false
                                end
                     | Throw _ => false
                     end)) in H.
  vm_compute in H. discriminate H.
Qed.

(** The two signals of those successive calls, field by field. *)
Example generateSignal_repeat_values :
  let r1 := generateSignal (caps := Demo.capabilities) Demo.bullish Demo.start in
  let r2 := generateSignal (caps := Demo.capabilities) Demo.bullish (snd r1) in
  fst r1 = Ret {| action := buy; confidence := 0.9;
                  reason := "RSI oversold. MACD bullish crossover. EMA bullish alignment. High volume confirmation.";
                  suggestedAmount := Some 350;
                  targetPrice := Some 103.75;
                  stopLoss := Some 97.5 |}
  /\ fst r2 = Ret {| action := buy; confidence := 0.9;
                     reason := "RSI oversold. MACD bullish crossover. EMA bullish alignment. High volume confirmation.";
                     suggestedAmount := Some 725;
                     targetPrice := Some 107.5;
                     stopLoss := Some 99.375 |}.
Proof. split; vm_compute; reflexivity. Qed.

(** C7, run on the demonstration snapshot. *)
Lemma generateSignal_all_bullish_witness :
  let i := Demo.bullish in
  rsi i = 20
  /\ Js.gtb (line (macd i)) (signal (macd i)) = true
  /\ Js.gtb (histogram (macd i)) 0 = true
  /\ Js.gtb (ema12 (movingAverages i)) (ema26 (movingAverages i)) = true
  /\ Js.gtb (volume i) 500000 = true
  /\ (volatility i <? 0.3) = true
  /\ exists s st',
      generateSignal (caps := Demo.capabilities) i Demo.start = (Ret s, st')
      /\ action s = buy
      /\ confidence s = 0.9.
Proof.
  cbv zeta. repeat (split; [reflexivity|]).
  apply (generateSignal_all_bullish (caps := Demo.capabilities)
           Demo.bullish Demo.start); reflexivity.
Defined.

(** On a snapshot where no rule fires the verdict is [hold] with
    confidence 0 and an empty reason. *)
Example generateSignal_quiet :
  fst (generateSignal (caps := Demo.capabilities) Demo.quiet Demo.start)
  = Ret {| action := hold; confidence := 0; reason := EmptyString;
           suggestedAmount := None; targetPrice := None; stopLoss := None |}.
Proof. vm_compute. reflexivity. Qed.

End SignalProps.

(** ** The position sizer: [calculatePositionSize] *)

Module SizerProps.

Import TradingTools.

Open Scope float_scope.

Section Generic.

Context {World : Type}.

(** The one path through [calculatePositionSize]: it records its call and
    returns the smaller of the risk-based size and half the balance. *)
Lemma calculatePositionSize_run (b r s : float) (st : St World) :
  calculatePositionSize b r s st
  = (Ret (Js.Math_min (b * (r / 100) / (s / 100)) (b * 0.5)),
     {| world := world st;
        trace := trace st ++ [EvCalculatePositionSize b r s] |}).
Proof. reflexivity. Qed.

(** Zero or more, of a number that is half of a balance that is zero or
    more. *)
Lemma half_nonneg (b : float) :
  (0 <=? b) = true -> PrimFloat.is_nan (b * 0.5) = false ->
  (0 <=? b * 0.5) = true.
Proof.
  rewrite !FloatFacts.leb_zero_spec, FloatFacts.is_nan_spec, mul_spec.
  intros Hb Hn. apply FloatFacts.SFmul_nonneg; auto.
Qed.

(** Zero or more, of the risk-based size of a valid input when it is a
    number. *)
Lemma risk_size_nonneg (b r s : float) :
  (0 <=? b) = true -> (0 <? r) = true -> (0 <? s) = true ->
  PrimFloat.is_nan (b * (r / 100) / (s / 100)) = false ->
  (0 <=? b * (r / 100) / (s / 100)) = true.
Proof.
  intros Hb Hr Hs.
  rewrite !FloatFacts.leb_zero_spec in *.
  apply FloatFacts.ltb_zero_plus in Hr, Hs.
  rewrite FloatFacts.is_nan_spec, div_spec, mul_spec, !div_spec.
  intros Hn.
  destruct (FloatFacts.SFdiv_operands _ _ Hn) as [Hrisk Hden].
  destruct (FloatFacts.SFmul_operands _ _ Hrisk) as [_ Hpct].
  apply FloatFacts.SFdiv_nonneg; auto.
  - apply FloatFacts.SFmul_nonneg; auto.
    apply FloatFacts.SFplus_nonneg, FloatFacts.SFdiv_plus; auto.
  - apply FloatFacts.SFdiv_plus; auto.
Qed.

End Generic.

Section Claims.

Context {World : Type}.

(** C3, as amended: [calculatePositionSize] checks nothing and never
    fails; for every balance and every pair of percentages, a negative
    balance and percentages at or below zero included, it returns the
    number [Math.min(balance * (risk / 100) / (stopLoss / 100),
    balance * 0.5)]. *)
Theorem calculatePositionSize_never_fails (b r s : float) (st : St World) :
  exists st',
    calculatePositionSize b r s st
    = (Ret (Js.Math_min (b * (r / 100) / (s / 100)) (b * 0.5)), st').
Proof. eexists. apply calculatePositionSize_run. Qed.

(** C8, as amended: for every valid input (balance at least 0, both
    percentages above 0) the sizer returns
    [size = Math.min(balance * (risk / 100) / (stopLoss / 100),
    balance * 0.5)], and whenever that size is a number (not NaN)
    [0 <= size <= balance * 0.5]; in particular the size for
    (10000, 1.5, 3) is 5000, capped, and the size for (10000, 1, 10) is
    1000. *)
Theorem calculatePositionSize_bounds (st : St World) :
  (forall b r s : float,
      (0 <=? b) = true -> (0 <? r) = true -> (0 <? s) = true ->
      exists size st',
        calculatePositionSize b r s st = (Ret size, st')
        /\ size = Js.Math_min (b * (r / 100) / (s / 100)) (b * 0.5)
        /\ (PrimFloat.is_nan size = false ->
            (0 <=? size) = true /\ (size <=? b * 0.5) = true))
  /\ fst (calculatePositionSize 10000 1.5 3 st) = Ret 5000
  /\ fst (calculatePositionSize 10000 1 10 st) = Ret 1000.
Proof.
  split; [|split; reflexivity].
  intros b r s Hb Hr Hs.
  do 2 eexists. split; [apply calculatePositionSize_run|].
  split; [reflexivity|]. intros Hsize.
  destruct (FloatFacts.Math_min_cases (b * (r / 100) / (s / 100)) (b * 0.5))
    as [[_ E] | [(Hp & Hc & E) | (Hp & Hc & Hlt & E)]];
    rewrite E in *.
  - discriminate Hsize.
  - split; [now apply half_nonneg | now apply FloatFacts.leb_refl].
  - split; [now apply risk_size_nonneg | now apply FloatFacts.not_ltb_leb].
Qed.

End Claims.

(** C3, the claim as stated fails: with a negative balance the sizer
    returns the number -50 and not an error. *)
Lemma calculatePositionSize_negative_balance :
  (-100 <? 0) = true
  /\ fst (calculatePositionSize (-100) 1.5 3 Demo.start) = Ret (-50).
Proof. split; reflexivity. Qed.

(** With a stop-loss percentage of zero the quotient is infinite and the
    cap is returned; with a zero balance as well it is NaN. *)
Example calculatePositionSize_zero_stop :
  fst (calculatePositionSize 10000 1.5 0 Demo.start) = Ret 5000
  /\ fst (calculatePositionSize 0 1.5 0 Demo.start) = Ret nan.
Proof. split; reflexivity. Qed.

(** C8, the claim as stated fails twice: the size for (10000, 1, 10) is
    1000 and not 100; and on the valid input (0, 1, 5e-324) the stop-loss
    fraction underflows to zero, the size is NaN and [0 <= size] is
    false. *)
Lemma calculatePositionSize_claimed_values_fail :
  (fst (calculatePositionSize 10000 1 10 Demo.start) = Ret 1000
   /\ (1000 =? 100) = false)
  /\ ((0 <=? 0) = true /\ (0 <? 1) = true /\ (0 <? 5e-324) = true
      /\ fst (calculatePositionSize 0 1 5e-324 Demo.start) = Ret nan
      /\ (0 <=? nan) = false).
Proof. repeat split; reflexivity. Qed.

(** C8, run on (10000, 1.5, 3). *)
Lemma calculatePositionSize_bounds_witness :
  (0 <=? 10000) = true /\ (0 <? 1.5) = true /\ (0 <? 3) = true
  /\ exists size st',
      calculatePositionSize 10000 1.5 3 Demo.start = (Ret size, st')
      /\ size = Js.Math_min (10000 * (1.5 / 100) / (3 / 100)) (10000 * 0.5)
      /\ (PrimFloat.is_nan size = false ->
          (0 <=? size) = true /\ (size <=? 10000 * 0.5) = true).
Proof.
  repeat (split; [reflexivity|]).
  apply (proj1 (calculatePositionSize_bounds Demo.start));
    reflexivity.
Defined.

End SizerProps.

(** ** The workflow steps *)

Module WorkflowProps.

Import TradingWorkflow Obs.

Open Scope float_scope.

Section Generic.

Context {World MarketData : Type} {B : Builtins}
        {caps : Capabilities World MarketData}.

Lemma tradingWorkflow_after_analysis (symbol : string) (tf : option string) :
  tradingWorkflow symbol tf
  = (analysis <- MarketAnalysis symbol tf ;; after_analysis analysis).
Proof. reflexivity. Qed.

(** A decision not to trade passes through [TradeExecution] untouched. *)
Lemma TradeExecution_NoTrade (sc : Scope MarketData) (reason : string)
    (st : St World) :
  TradeExecution_in sc (NoTrade reason) st = (Ret (Some (Skipped reason)), st).
Proof. reflexivity. Qed.

(** With [ethers] bound and the amount parsed, a quote whose price impact
    is not below 1.5 ends the step after the quote: the result is the
    skip, the only call is the quote request. *)
Lemma TradeExecution_in_guard
    (sc : Scope MarketData) (parseUnits : string -> Z -> outcome string)
    (symbol reason units : string) (positionSize confidence : float)
    (q : Quote) (st : St World) (w' : World) :
  scope_ethers sc = Some parseUnits ->
  parseUnits (Number_toFixed (positionSize * 0.99) 6) 6%Z = Ret units ->
  (forall tokenIn tokenOut,
      getTradeQuote tokenIn tokenOut units (world st) = (Ret q, w')) ->
  (quote_priceImpact q <? 1.5) = false ->
  exists tokenIn tokenOut,
    TradeExecution_in sc (Trade buy symbol positionSize reason confidence) st
    = (Ret (Some (Skipped ("Price impact too high: "
                           ++ Number_toString (quote_priceImpact q) ++ "%"))),
       {| world := w';
          trace := trace st ++ [EvGetTradeQuote tokenIn tokenOut units] |}).
Proof.
  intros Hsc Hpu Hq Himpact.
  do 2 eexists.
  unfold TradeExecution_in, try_catch, bind, lookup, lift, call, ret.
  rewrite Hsc, Hpu. cbn [world trace]. rewrite Hq. cbn [world trace].
  rewrite Himpact. reflexivity.
Qed.

(** When the decision is not to trade, the steps after the analysis leave
    the state as it is and report the skip. *)
Lemma after_analysis_no_trade (a : Analysis MarketData) (st : St World) :
  Action_eqb (action (analysis_signal a)) hold
  || (confidence (analysis_signal a) <? 0.6) = true ->
  after_analysis a st
  = (Ret {| status := skipped;
            message := "Low confidence ("
                       ++ Number_toString (confidence (analysis_signal a))
                       ++ ")";
            execution := None |}, st).
Proof.
  intros Hguard. unfold after_analysis, bind, DecisionMaking.
  rewrite Hguard. reflexivity.
Qed.

(** The whole workflow on such a signal: after [MarketAnalysis] nothing
    more is called. *)
Lemma tradingWorkflow_no_trade (symbol : string) (tf : option string)
    (a : Analysis MarketData) (st st1 : St World) :
  MarketAnalysis symbol tf st = (Ret a, st1) ->
  Action_eqb (action (analysis_signal a)) hold
  || (confidence (analysis_signal a) <? 0.6) = true ->
  exists report,
    tradingWorkflow symbol tf st = (Ret report, st1)
    /\ status report = skipped.
Proof.
  intros Hrun Hguard. eexists.
  rewrite tradingWorkflow_after_analysis. unfold bind at 1. rewrite Hrun.
  rewrite (after_analysis_no_trade _ _ Hguard). split; reflexivity.
Qed.

(** Whatever [ethers] is, while [marketData] is unbound no run of
    [TradeExecution] on a buy decision reports [executed: true]. *)
Lemma TradeExecution_in_marketData_unbound
    (sc : Scope MarketData) (symbol reason : string)
    (positionSize confidence : float) (st st' : St World)
    (r : option ExecutionResult) :
  scope_marketData sc = None ->
  TradeExecution_in sc (Trade buy symbol positionSize reason confidence) st
  = (Ret r, st') ->
  exists x, r = Some x /\ executed x = false.
Proof.
  intros Hmd.
  unfold TradeExecution_in, try_catch, bind, lookup, lift, call, ask, ret, throw.
  rewrite Hmd.
  destruct (scope_ethers sc) as [parseUnits|]; cbn [world trace].
  2: { intros H; inversion H; eexists; split; reflexivity. }
  destruct (parseUnits _ _) as [units|e]; cbn [world trace].
  2: { intros H; inversion H; eexists; split; reflexivity. }
  destruct (getTradeQuote _ _ _ _) as [[q|e] w1]; cbn [world trace].
  2: { intros H; inversion H; eexists; split; reflexivity. }
  destruct (quote_priceImpact q <? 1.5); cbn [world trace].
  2: { intros H; inversion H; eexists; split; reflexivity. }
  destruct (executeTrade _ _ _ _ _) as [[tx|e] w2]; cbn [world trace].
  2: { intros H; inversion H; eexists; split; reflexivity. }
  destruct (Date_now w2) as [now w3]; cbn [world trace].
  intros H; inversion H; eexists; split; reflexivity.
Qed.

End Generic.

Section Claims.

Context {World MarketData : Type} {B : Builtins}
        {caps : Capabilities World MarketData}.

(** C1, what the code does on the sell direction: for every decision with
    execute = true and action = sell, [TradeExecution] returns
    [{ executed: false, reason: 'Sell implementation pending' }] without
    requesting a quote or submitting a trade (the state, and with it the
    trace of capability calls, is unchanged). *)
Theorem TradeExecution_sell_pending
    (symbol reason : string) (positionSize confidence : float)
    (st : St World) :
  TradeExecution (Trade sell symbol positionSize reason confidence) st
  = (Ret (Some (Skipped "Sell implementation pending")), st).
Proof. reflexivity. Qed.

(** C10: for every decision with execute = true and action = buy,
    [TradeExecution] never returns [executed: true]: reading the unbound
    identifier [ethers] throws before the quote is requested, and the
    [catch] returns [{ executed: false, error: 'ethers is not defined' }];
    no capability has been called. *)
Theorem TradeExecution_buy_never_executed
    (symbol reason : string) (positionSize confidence : float)
    (st : St World) :
  TradeExecution (Trade buy symbol positionSize reason confidence) st
  = (Ret (Some (Failed "ethers is not defined")), st)
  /\ forall r st',
      TradeExecution (Trade buy symbol positionSize reason confidence) st
      = (Ret (Some r), st') ->
      executed r = false.
Proof.
  assert (E : TradeExecution (Trade buy symbol positionSize reason confidence) st
              = (Ret (Some (Failed "ethers is not defined")), st))
    by reflexivity.
  split; [exact E|].
  intros r st' H. rewrite E in H. inversion H. reflexivity.
Qed.

(** C5: for every signal with action = hold or confidence < 0.6,
    [DecisionMaking] returns [{ execute: false, reason }] with the reason
    ['Low confidence (<confidence>)'], and the rest of the workflow ends in
    status [skipped] with that reason as message; the state is unchanged
    throughout, so the portfolio balance is not fetched, the position
    sizer is not called, no quote is requested and no trade is
    submitted. *)
Theorem DecisionMaking_skips (a : Analysis MarketData) (st : St World) :
  action (analysis_signal a) = hold
  \/ (confidence (analysis_signal a) <? 0.6) = true ->
  let why :=
    ("Low confidence ("
     ++ Number_toString (confidence (analysis_signal a)) ++ ")")%string in
  DecisionMaking a st = (Ret (NoTrade why), st)
  /\ TradeExecution (NoTrade why) st = (Ret (Some (Skipped why)), st)
  /\ after_analysis a st
     = (Ret {| status := skipped; message := why; execution := None |}, st).
Proof.
  intros Hskip why.
  assert (Hguard : Action_eqb (action (analysis_signal a)) hold
                   || (confidence (analysis_signal a) <? 0.6) = true).
  { destruct Hskip as [-> | ->]; [reflexivity | apply orb_true_r]. }
  assert (Hd : DecisionMaking a st = (Ret (NoTrade why), st)).
  { unfold DecisionMaking. rewrite Hguard. reflexivity. }
  split; [exact Hd|]. split; [reflexivity|].
  unfold after_analysis, bind. rewrite Hd. reflexivity.
Qed.

End Claims.

(** C5, run on the signal of the quiet snapshot (action [hold]). *)
Lemma DecisionMaking_skips_witness :
  let a := {| analysis_symbol := "ETH/USDC";
              analysis_marketData := tt;
              analysis_signal :=
                {| action := hold; confidence := 0; reason := EmptyString;
                   suggestedAmount := None; targetPrice := None;
                   stopLoss := None |} |} in
  (action (analysis_signal a) = hold
   \/ (confidence (analysis_signal a) <? 0.6) = true)
  /\ DecisionMaking (B := Demo.builtins) (caps := Demo.capabilities) a Demo.start
     = (Ret (NoTrade "Low confidence (<number>)"), Demo.start)
  /\ after_analysis (B := Demo.builtins) (caps := Demo.capabilities) a Demo.start
     = (Ret {| status := skipped; message := "Low confidence (<number>)";
               execution := None |}, Demo.start).
Proof.
  intros a.
  assert (H : action (analysis_signal a) = hold
              \/ (confidence (analysis_signal a) <? 0.6) = true)
    by (left; reflexivity).
  split; [exact H|].
  destruct (DecisionMaking_skips (B := Demo.builtins)
              (caps := Demo.capabilities) a Demo.start H) as (Hd & _ & Ha).
  split; [exact Hd | exact Ha].
Defined.

(** A confident buy signal is sized at half the balance and passed on. *)
Example DecisionMaking_confident_buy :
  fst (DecisionMaking (B := Demo.builtins) (caps := Demo.capabilities)
         {| analysis_symbol := "ETH/USDC";
            analysis_marketData := tt;
            analysis_signal :=
              {| action := buy; confidence := 0.9; reason := "RSI oversold.";
                 suggestedAmount := Some 350; targetPrice := Some 103.75;
                 stopLoss := Some 97.5 |} |}
         Demo.start)
  = Ret (Trade buy "ETH/USDC" 5000 "RSI oversold." 0.9).
Proof. vm_compute. reflexivity. Qed.

(** C4, the code on a quote with price impact 2 (the demonstration world
    answers every quote request with it): the buy decision for ETH/USDC
    ends in [{ executed: false, error: 'ethers is not defined' }], which
    carries no reason; no quote was requested and no trade submitted; and
    [PostTradeAnalysis] reports ['Unknown reason']. *)
Theorem TradeExecution_guard_unreached :
  let d := Trade buy "ETH/USDC" 5000 "RSI oversold." 0.9 in
  (1.5 <=? quote_priceImpact Demo.quote) = true
  /\ (forall tokenIn tokenOut amountIn w,
        getTradeQuote (Capabilities := Demo.capabilities)
          tokenIn tokenOut amountIn w = (Ret Demo.quote, w))
  /\ TradeExecution (B := Demo.builtins) (caps := Demo.capabilities) d Demo.start
     = (Ret (Some (Failed "ethers is not defined")), Demo.start)
  /\ no_quote_requested (trace Demo.start)
  /\ no_trade_submitted (trace Demo.start)
  /\ fst (PostTradeAnalysis (World := Demo.World)
            (Some (Failed "ethers is not defined")) Demo.start)
     = Ret {| status := skipped; message := "Unknown reason";
              execution := None |}.
Proof.
  repeat split; try reflexivity;
    unfold no_quote_requested, no_trade_submitted; simpl; tauto.
Qed.

(** The guard the step was written to apply: were [ethers] bound, the same
    decision on the same quote would be skipped for its price impact,
    after the quote request and before any trade. *)
Example TradeExecution_guard_intended :
  let sc := {| scope_ethers := Some (fun amount _ => Ret amount);
               scope_marketData := None |} in
  TradeExecution_in (B := Demo.builtins) (caps := Demo.capabilities) sc
    (Trade buy "ETH/USDC" 5000 "RSI oversold." 0.9) Demo.start
  = (Ret (Some (Skipped "Price impact too high: <number>%")),
     {| world := world Demo.start;
        trace := [EvGetTradeQuote "0xa0b86991c6218b36c1d19d4a2e9eb0ce3606eb48"
                    "0xc02aaa39b223fe8d0a0e5c4f27ead9083c756cc2" "<fixed>"] |}).
Proof. vm_compute. reflexivity. Qed.

(** With [ethers] bound and a quote of low price impact, the trade is
    submitted and the step still reports a failure: [marketData] is read
    after [executeTrade] has returned. *)
Example TradeExecution_trade_submitted_then_failed :
  let caps := {| Math_random := Math_random (Capabilities := Demo.capabilities);
                 Date_now := Date_now (Capabilities := Demo.capabilities);
                 getMarketData := getMarketData (Capabilities := Demo.capabilities);
                 getPortfolioBalance :=
                   getPortfolioBalance (Capabilities := Demo.capabilities);
                 getTradeQuote := fun _ _ _ w =>
                   (Ret {| amountOut := "1"; quote_priceImpact := 0.5 |}, w);
                 executeTrade := executeTrade (Capabilities := Demo.capabilities);
                 apiClient_post := apiClient_post (Capabilities := Demo.capabilities);
                 agent_execute := agent_execute (Capabilities := Demo.capabilities);
                 price := price (Capabilities := Demo.capabilities) |} in
  let sc := {| scope_ethers := Some (fun amount _ => Ret amount);
               scope_marketData := None |} in
  let run := TradeExecution_in (B := Demo.builtins) (caps := caps) sc
               (Trade buy "ETH/USDC" 5000 "RSI oversold." 0.9) Demo.start in
  fst run = Ret (Some (Failed "marketData is not defined"))
  /\ In (EvExecuteTrade "0xa0b86991c6218b36c1d19d4a2e9eb0ce3606eb48"
           "0xc02aaa39b223fe8d0a0e5c4f27ead9083c756cc2" "<fixed>" "<number>")
        (trace (snd run)).
Proof. split; vm_compute; [reflexivity | auto]. Qed.

End WorkflowProps.

(** ** The agent: cooldown *)

Module AgentProps.

Import SlothfulTrader Obs.

Open Scope list_scope.

Section Generic.

Context {World MarketData : Type} {B : Builtins}
        {caps : Capabilities World MarketData}.

(** [store] makes exactly one call, whether it returns or throws. *)
Lemma store_trace (key : string) (data : MemoryData) (st : St World) :
  exists r st',
    TradingMemory.store key data st = (r, st')
    /\ trace st' = trace st ++ [EvMemoryStore key data].
Proof.
  unfold TradingMemory.store, try_catch, bind, ask, call, throw.
  destruct (Date_now (world st)) as [now w]; cbn [world trace].
  destruct (apiClient_post _ _ _ _ w) as [[u|e] w']; cbn [world trace]; eauto.
Qed.

Lemma storeMarketInsight_trace (symbol insight : string) (c : float)
    (st : St World) :
  exists r st' key data,
    TradingMemory.storeMarketInsight symbol insight c st = (r, st')
    /\ trace st' = trace st ++ [EvMemoryStore key data].
Proof.
  unfold TradingMemory.storeMarketInsight, bind, ask.
  destruct (Date_now (world st)) as [stamp w]; cbn [world trace].
  destruct (Date_now w) as [now w']; cbn [world trace].
  match goal with
  | |- context [TradingMemory.store ?k ?d ?s] =>
      destruct (store_trace k d s) as (r & st' & Hrun & Htr); rewrite Hrun
  end.
  do 4 eexists. split; [reflexivity | exact Htr].
Qed.

Lemma storeTradingDecision_trace (entry : TradingMemoryEntry) (st : St World) :
  exists r st' key data,
    TradingMemory.storeTradingDecision entry st = (r, st')
    /\ trace st' = trace st ++ [EvMemoryStore key data].
Proof.
  unfold TradingMemory.storeTradingDecision, bind, ask.
  destruct (Date_now (world st)) as [now w]; cbn [world trace].
  match goal with
  | |- context [TradingMemory.store ?k ?d ?s] =>
      destruct (store_trace k d s) as (r & st' & Hrun & Htr); rewrite Hrun
  end.
  do 4 eexists. split; [reflexivity | exact Htr].
Qed.

(** [executeTradingDecision] always returns, and its first call is the
    decision prompt. *)
Lemma executeTradingDecision_trace (symbol analysis : string) (st : St World) :
  exists st' action evs,
    executeTradingDecision symbol analysis st = (Ret tt, st')
    /\ trace st'
       = trace st ++ EvAgentExecute (DecisionPrompt action symbol analysis) :: evs.
Proof.
  unfold executeTradingDecision, try_catch, bind, call, ask, ret.
  destruct (agent_execute _ (world st)) as [[resp|e] w]; cbn [world trace].
  2: { do 3 eexists. split; reflexivity. }
  destruct (Date_now w) as [now w']; cbn [world trace].
  match goal with
  | |- context [TradingMemory.storeTradingDecision ?en ?s] =>
      destruct (storeTradingDecision_trace en s)
        as (r & st' & key & data & Hrun & Htr);
      rewrite Hrun
  end.
  cbn [trace] in Htr. rewrite <- app_assoc in Htr. cbn [app] in Htr.
  destruct r as [[]|e]; do 3 eexists; (split; [reflexivity | exact Htr]).
Qed.

(** The three ways a call of [analyzeTradingPair] can go, by the value
    [now] it reads on entry: skipped inside the cooldown, with no call at
    all; analysed without a trading decision, the object unchanged; or
    analysed with a trading decision, and [lastTradeTimestamp] set to
    [now]. *)
Lemma analyzeTradingPair_cases (self : SlothfulTrader) (symbol : string)
    (st : St World) :
  let now := fst (Date_now (world st)) in
  exists self' st' evs,
    analyzeTradingPair self symbol st = (Ret self', st')
    /\ trace st' = trace st ++ evs
    /\ ((now - lastTradeTimestamp self < cooldownPeriod self
         /\ self' = self /\ evs = [])
        \/ (cooldownPeriod self <= now - lastTradeTimestamp self
            /\ self' = self /\ existsb is_decision evs = false)
        \/ (cooldownPeriod self <= now - lastTradeTimestamp self
            /\ self' = set_lastTradeTimestamp self now
            /\ existsb is_decision evs = true))%Z.
Proof.
  unfold analyzeTradingPair, try_catch, bind, ask, call, ret.
  destruct (Date_now (world st)) as [now w1]; cbn [world trace fst].
  destruct (now - lastTradeTimestamp self <? cooldownPeriod self)%Z eqn:Hcd.
  { apply Z.ltb_lt in Hcd.
    exists self, {| world := w1; trace := trace st |}, [].
    cbn [trace]. rewrite app_nil_r.
    split; [reflexivity|]. split; [reflexivity|]. left. auto. }
  apply Z.ltb_ge in Hcd. cbn [world trace].
  destruct (agent_execute (AnalysisPrompt symbol) w1) as [[resp|e] w2];
    cbn [world trace].
  2: { do 3 eexists. split; [reflexivity|]. split; [reflexivity|].
       right; left. auto. }
  match goal with
  | |- context [TradingMemory.storeMarketInsight ?s ?i ?c ?x] =>
      destruct (storeMarketInsight_trace s i c x)
        as (r & st3 & key & data & Hrun & Htr);
      rewrite Hrun
  end.
  cbn [trace] in Htr. rewrite <- app_assoc in Htr. cbn [app] in Htr.
  destruct r as [[]|e].
  2: { do 3 eexists. split; [reflexivity|]. split; [exact Htr|].
       right; left. auto. }
  destruct (Str.includes "buy" (Str.toLowerCase (text resp))
            || Str.includes "sell" (Str.toLowerCase (text resp))).
  2: { do 3 eexists. split; [reflexivity|]. split; [exact Htr|].
       right; left. auto. }
  destruct (executeTradingDecision_trace symbol (text resp) st3)
    as (st4 & a & evs & Hrun4 & Htr4).
  rewrite Hrun4. rewrite Htr, <- app_assoc in Htr4. cbn [app] in Htr4.
  do 3 eexists. split; [reflexivity|]. split; [exact Htr4|].
  right; right. auto.
Qed.

(** Inside the cooldown a call returns the object unchanged and leaves the
    trace as it was: the agent is not asked for an analysis. *)
Lemma analyzeTradingPair_in_cooldown (self : SlothfulTrader) (symbol : string)
    (st : St World) :
  (fst (Date_now (world st)) - lastTradeTimestamp self < cooldownPeriod self)%Z ->
  exists st',
    analyzeTradingPair self symbol st = (Ret self, st')
    /\ trace st' = trace st.
Proof.
  intros Hcd.
  destruct (analyzeTradingPair_cases self symbol st)
    as (self' & st' & evs & Hrun & Htr & [(_ & -> & ->) | [(H & _) | (H & _)]]);
    cbv zeta in *; try lia.
  exists st'. rewrite app_nil_r in Htr. auto.
Qed.

(** Over any sequence of attempts the cooldown period stays and the last
    trade timestamp does not decrease. *)
Lemma attempts_monotone (self self' : SlothfulTrader) :
  attempts self self' ->
  (0 <= cooldownPeriod self)%Z ->
  cooldownPeriod self' = cooldownPeriod self
  /\ (lastTradeTimestamp self <= lastTradeTimestamp self')%Z.
Proof.
  induction 1 as [self | self self1 self2 symbol st st1 Hrun _ IH]; intros Hcd.
  { split; [reflexivity | lia]. }
  destruct (analyzeTradingPair_cases self symbol st)
    as (x & st' & evs & Hrun' & _ & Hcases).
  rewrite Hrun in Hrun'. inversion Hrun'; subst x st'. clear Hrun'.
  cbv zeta in Hcases.
  destruct Hcases as [(_ & -> & _) | [(_ & -> & _) | (Hge & -> & _)]];
    try (apply IH; assumption).
  destruct IH as [IHc IHt]; [exact Hcd|].
  cbn [set_lastTradeTimestamp cooldownPeriod lastTradeTimestamp] in *.
  split; [exact IHc | lia].
Qed.

End Generic.

Section Claims.

Context {World MarketData : Type} {B : Builtins}
        {caps : Capabilities World MarketData}.

(** The cooldown is kept in one field for all instruments: after a trading
    decision at time [T], an attempt on any symbol before
    [T + cooldownPeriod] is skipped. *)
Lemma cooldown_blocks_every_symbol
    (self0 self1 self2 : SlothfulTrader) (X Y : string)
    (st0 st1 st : St World) (evs : list Event) :
  (0 <= cooldownPeriod self0)%Z ->
  analyzeTradingPair self0 X st0 = (Ret self1, st1) ->
  trace st1 = trace st0 ++ evs ->
  existsb is_decision evs = true ->
  attempts self1 self2 ->
  (fst (Date_now (world st))
   < fst (Date_now (world st0)) + cooldownPeriod self0)%Z ->
  exists st',
    analyzeTradingPair self2 Y st = (Ret self2, st')
    /\ trace st' = trace st.
Proof.
  intros Hcd Hrun Htr Hdec Hatt Hsoon.
  destruct (analyzeTradingPair_cases self0 X st0)
    as (x & st' & evs' & Hrun' & Htr' & Hcases).
  rewrite Hrun in Hrun'. inversion Hrun'; subst x st'. clear Hrun'.
  rewrite Htr in Htr'. apply app_inv_head in Htr'. subst evs'.
  cbv zeta in Hcases.
  destruct Hcases as [(_ & _ & ->) | [(_ & _ & Hno) | (_ & -> & _)]];
    [discriminate Hdec | congruence |].
  destruct (attempts_monotone Hatt) as [Hc Ht]; [exact Hcd|].
  cbn [set_lastTradeTimestamp cooldownPeriod lastTradeTimestamp] in *.
  apply analyzeTradingPair_in_cooldown. lia.
Qed.

(** C9, as amended: after an evaluation of instrument X that read the time
    [T] on entry and carried out a trading decision, and after any further
    attempts, every attempt for X that reads a time before
    [T + cooldownPeriod] returns at once: the object is unchanged and no
    call is added to the trace, so the agent is not asked for a market
    analysis.  The cooldown runs from the entry of that evaluation, not
    from its completion. *)
Theorem cooldown_skips_analysis
    (self0 self1 self2 : SlothfulTrader) (X action analysis : string)
    (st0 st1 st : St World) (evs : list Event) :
  (0 <= cooldownPeriod self0)%Z ->
  analyzeTradingPair self0 X st0 = (Ret self1, st1) ->
  trace st1 = trace st0 ++ evs ->
  In (EvAgentExecute (DecisionPrompt action X analysis)) evs ->
  attempts self1 self2 ->
  (fst (Date_now (world st))
   < fst (Date_now (world st0)) + cooldownPeriod self0)%Z ->
  exists st',
    analyzeTradingPair self2 X st = (Ret self2, st')
    /\ trace st' = trace st.
Proof.
  intros Hcd Hrun Htr Hin Hatt Hsoon.
  apply cooldown_blocks_every_symbol
    with (X := X) (st0 := st0) (st1 := st1) (evs := evs)
         (self0 := self0) (self1 := self1);
    try assumption.
  apply existsb_exists. eexists. split; [exact Hin | reflexivity].
Qed.

End Claims.

(** C9, as amended, run in the demonstration world: the first attempt on
    ETH/USDC reads the time 1000000 and trades; the next attempt, a few
    seconds later, is skipped. *)
Lemma cooldown_skips_analysis_witness :
  let self0 := new_SlothfulTrader in
  let X := "ETH/USDC"%string in
  let run := analyzeTradingPair (B := Demo.builtins)
               (caps := Demo.capabilities) self0 X Demo.start in
  let self1 := set_lastTradeTimestamp self0 1000000 in
  (0 <= cooldownPeriod self0)%Z
  /\ fst run = Ret self1
  /\ In (EvAgentExecute (DecisionPrompt "buy" X "Strong BUY signal"))
        (trace (snd run))
  /\ attempts (B := Demo.builtins) (caps := Demo.capabilities) self1 self1
  /\ (fst (Date_now (Capabilities := Demo.capabilities) (world (snd run)))
      < fst (Date_now (Capabilities := Demo.capabilities) (world Demo.start))
        + cooldownPeriod self0)%Z
  /\ exists st',
      analyzeTradingPair (B := Demo.builtins) (caps := Demo.capabilities)
        self1 X (snd run)
      = (Ret self1, st')
      /\ trace st' = trace (snd run).
Proof.
  intros self0 X run self1.
  assert (Hcd : (0 <= cooldownPeriod self0)%Z) by (vm_compute; discriminate).
  assert (Hrun : run = (Ret self1, snd run)) by (vm_compute; reflexivity).
  assert (Hin : In (EvAgentExecute (DecisionPrompt "buy" X "Strong BUY signal"))
                   (trace (snd run)))
    by (vm_compute; auto).
  assert (Hatt : attempts (B := Demo.builtins) (caps := Demo.capabilities)
                   self1 self1)
    by apply attempts_none.
  assert (Hsoon :
            (fst (Date_now (Capabilities := Demo.capabilities) (world (snd run)))
             < fst (Date_now (Capabilities := Demo.capabilities)
                      (world Demo.start))
               + cooldownPeriod self0)%Z)
    by (vm_compute; reflexivity).
  split; [exact Hcd|].
  split; [rewrite Hrun at 1; reflexivity|].
  split; [exact Hin|]. split; [exact Hatt|]. split; [exact Hsoon|].
  apply cooldown_skips_analysis
    with (self0 := self0) (self1 := self1) (st0 := Demo.start)
         (st1 := snd run) (evs := trace (snd run)) (action := "buy"%string)
         (analysis := "Strong BUY signal"%string);
    [exact Hcd | exact Hrun | reflexivity | exact Hin | exact Hatt | exact Hsoon].
Defined.

(** C9, the claim as stated fails.  In the demonstration world the first
    attempt on ETH/USDC reads 1000000 on entry, trades, and has completed
    when the clock reads [T] = 1007000.  An attempt at 1300500 is before
    [T + cooldownPeriod] = 1307000, yet it is not skipped: it asks the
    agent for a market analysis, because 1300500 - 1000000 is not below
    the cooldown. *)
Lemma cooldown_runs_from_entry :
  let X := "ETH/USDC"%string in
  let run := analyzeTradingPair (B := Demo.builtins)
               (caps := Demo.capabilities) new_SlothfulTrader X Demo.start in
  let self1 := set_lastTradeTimestamp new_SlothfulTrader 1000000 in
  let T := fst (Date_now (Capabilities := Demo.capabilities)
                  (world (snd run))) in
  let later := {| world := {| Demo.clock := 1300500; Demo.draws := 2 |};
                  trace := trace (snd run) |} in
  fst run = Ret self1
  /\ In (EvAgentExecute (DecisionPrompt "buy" X "Strong BUY signal"))
        (trace (snd run))
  /\ T = 1007000%Z
  /\ (fst (Date_now (Capabilities := Demo.capabilities) (world later))
      < T + cooldownPeriod self1)%Z
  /\ In (EvAgentExecute (AnalysisPrompt X))
        (skipn (List.length (trace later))
           (trace (snd (analyzeTradingPair (B := Demo.builtins)
                          (caps := Demo.capabilities) self1 X later)))).
Proof.
  cbv zeta. split; [vm_compute; reflexivity|].
  split; [vm_compute; auto|]. split; [vm_compute; reflexivity|].
  split; [vm_compute; reflexivity|]. vm_compute. auto.
Qed.

(** The trace of the two attempts of the witness: analysis, insight,
    decision and record for the first; nothing for the second. *)
Example cooldown_trace :
  let run := analyzeTradingPair (B := Demo.builtins)
               (caps := Demo.capabilities) new_SlothfulTrader "ETH/USDC"
               Demo.start in
  let self1 := set_lastTradeTimestamp new_SlothfulTrader 1000000 in
  map is_decision (trace (snd run)) = [false; false; true; false]
  /\ trace (snd (analyzeTradingPair (B := Demo.builtins)
                   (caps := Demo.capabilities) self1 "ETH/USDC" (snd run)))
     = trace (snd run).
Proof. split; vm_compute; reflexivity. Qed.

End AgentProps.

(* ================================================================== *)
(** * Part III: the code beyond the claims *)
(* ================================================================== *)

(** ** Rounding never invents NaN *)

Module RoundingFacts.

Import SF Measures.

Open Scope float_scope.

Lemma iter_pos_invariant {A} (P : A -> Prop) (f : A -> A) :
  (forall x, P x -> P (f x)) -> forall n x, P x -> P (iter_pos f n x).
Proof.
  intros Hf. induction n as [n IH | n IH |]; intros x Hx; simpl; auto.
Qed.

Lemma shr_1_nonneg (mrs : shr_record) :
  (0 <= shr_m mrs)%Z -> (0 <= shr_m (shr_1 mrs))%Z.
Proof.
  destruct mrs as [m r s]. simpl.
  destruct m as [|[p|p|]|p]; simpl; intros; try lia.
Qed.

Lemma shr_fexp_nonneg (m e : Z) (l : location) :
  (0 <= m)%Z -> (0 <= shr_m (fst (shr_fexp prec emax m e l)))%Z.
Proof.
  intros Hm. unfold shr_fexp, shr.
  assert (H0 : (0 <= shr_m (shr_record_of_loc m l))%Z).
  { destruct l as [|[]]; simpl; exact Hm. }
  destruct (fexp prec emax (Zdigits2 m + e) - e)%Z; simpl; auto.
  apply iter_pos_invariant; auto using shr_1_nonneg.
Qed.

Lemma round_nearest_even_nonneg (m : Z) (l : location) :
  (0 <= m)%Z -> (0 <= round_nearest_even m l)%Z.
Proof.
  intros Hm. destruct l as [|[]]; simpl; try lia.
  destruct (Z.even m); lia.
Qed.

(** Rounding a non-negative integer mantissa never produces NaN. *)
Lemma binary_round_aux_number (s : bool) (m e : Z) (l : location) :
  (0 <= m)%Z -> SFis_nan (binary_round_aux prec emax s m e l) = false.
Proof.
  intros Hm. unfold binary_round_aux.
  pose proof (shr_fexp_nonneg e l Hm) as H1.
  destruct (shr_fexp prec emax m e l) as [mrs' e']. simpl in H1.
  pose proof (shr_fexp_nonneg e' loc_Exact
                (round_nearest_even_nonneg (loc_of_shr_record mrs') H1)) as H2.
  destruct (shr_fexp prec emax _ e' loc_Exact) as [mrs'' e'']. simpl in H2.
  destruct (shr_m mrs''); try reflexivity; [|lia].
  destruct (Z.leb e'' _); reflexivity.
Qed.

Lemma SFmul_by_constant (x c : spec_float) :
  SFnonneg x = true -> SFfinite_plus c = true ->
  SFnonneg (SF64mul x c) = true.
Proof.
  unfold SF64mul.
  destruct x as [sx|sx| |sx mx ex], c as [sc|sc| |[] mc ec]; simpl;
    intros Hx Hc; try discriminate; try reflexivity;
    FloatFacts.sign_facts; try reflexivity.
  apply FloatFacts.SFplus_nonneg, FloatFacts.SFplus_round.
  apply binary_round_aux_number. lia.
Qed.

Lemma SFdiv_core_nonneg (m1 m2 : positive) (e1 e2 : Z) :
  (0 <= fst (fst (SFdiv_core_binary prec emax (Zpos m1) e1 (Zpos m2) e2)))%Z.
Proof.
  unfold SFdiv_core_binary.
  set (s := (e1 - e2 - _)%Z).
  set (m' := match s with Zpos _ => Z.shiftl (Zpos m1) s | Z0 => Zpos m1 | Zneg _ => 0%Z end).
  assert (Hm' : (0 <= m')%Z).
  { unfold m'. destruct s; try lia. apply Z.shiftl_nonneg. lia. }
  pose proof (Z.div_pos m' (Zpos m2) Hm' ltac:(lia)) as Hq.
  unfold Z.div in Hq.
  destruct (Z.div_eucl m' (Zpos m2)) as [q r]. simpl. exact Hq.
Qed.

Lemma SFdiv_by_constant (x c : spec_float) :
  SFnonneg x = true -> SFfinite_plus c = true ->
  SFnonneg (SF64div x c) = true.
Proof.
  unfold SF64div.
  destruct x as [sx|sx| |sx mx ex], c as [sc|sc| |[] mc ec]; simpl;
    intros Hx Hc; try discriminate; try reflexivity;
    FloatFacts.sign_facts; try reflexivity.
  pose proof (SFdiv_core_nonneg mx mc ex ec) as Hq.
  destruct (SFdiv_core_binary prec emax (Zpos mx) ex (Zpos mc) ec) as [[mz ez] lz].
  simpl in Hq.
  apply FloatFacts.SFplus_nonneg, FloatFacts.SFplus_round.
  now apply binary_round_aux_number.
Qed.

Lemma mul_by_constant (x c : float) :
  (0 <=? x) = true -> SFfinite_plus (Prim2SF c) = true ->
  (0 <=? x * c) = true.
Proof.
  rewrite !FloatFacts.leb_zero_spec, mul_spec. apply SFmul_by_constant.
Qed.

Lemma div_by_constant (x c : float) :
  (0 <=? x) = true -> SFfinite_plus (Prim2SF c) = true ->
  (0 <=? x / c) = true.
Proof.
  rewrite !FloatFacts.leb_zero_spec, div_spec. apply SFdiv_by_constant.
Qed.

Lemma nonneg_is_number (x : float) :
  (0 <=? x) = true -> PrimFloat.is_nan x = false.
Proof.
  rewrite FloatFacts.leb_zero_spec, FloatFacts.is_nan_spec.
  destruct (Prim2SF x); simpl; congruence.
Qed.

End RoundingFacts.

(** ** The Signal Engine, continued *)

Module SignalExtras.

Import TradingTools SignalEngine Measures.

Open Scope float_scope.

(** Whatever rules fire, the score is at most 0.9. *)
Lemma score_at_most_090 (f : Firing) : (score f <=? 0.9) = true.
Proof. destruct f as [[m|] [t|] [a|] [|] [|]]; vm_compute; reflexivity. Qed.

(** With fewer than three of the four additive rules the score is below
    0.6. *)
Lemma score_needs_three_rules (f : Firing) :
  (fired_count f < 3)%nat -> (score f <? 0.6) = true.
Proof.
  destruct f as [[m|] [t|] [a|] [|] [|]]; unfold fired_count; simpl;
    intros H; try lia; vm_compute; reflexivity.
Qed.

(** With all three directional rules fired, whatever their directions,
    the volume and the volatility, the score is not below 0.6. *)
Lemma score_three_directional (m t a : Action) (c d : bool) :
  (score {| momentum := Some m; trend := Some t; alignment := Some a;
            confirmation := c; dampening := d |} <? 0.6) = false.
Proof. destruct c, d; vm_compute; reflexivity. Qed.

Section Generic.

Context {World MarketData : Type} {B : Builtins}
        {caps : Capabilities World MarketData}.


(** A signal built on fewer than three of the four additive rules (RSI,
    MACD, EMA, volume) has a confidence below 0.6, and [DecisionMaking]
    turns it into a decision not to trade, in every state and for every
    symbol. *)
Theorem fewer_than_three_rules_never_trade
    (i : TechnicalIndicators) (st : St World) :
  (fired_count (firing i) < 3)%nat ->
  exists s st',
    generateSignal i st = (Ret s, st')
    /\ (confidence s <? 0.6) = true
    /\ forall symbol marketData st2,
        exists why,
          TradingWorkflow.DecisionMaking
            {| TradingWorkflow.analysis_symbol := symbol;
               TradingWorkflow.analysis_marketData := marketData;
               TradingWorkflow.analysis_signal := s |} st2
          = (Ret (NoTrade why), st2).
Proof.
  intros Hfew.
  destruct (SignalProps.generateSignal_refines i st)
    as (s & st' & Hrun & _ & _ & Hc & _).
  exists s, st'. split; [exact Hrun|].
  assert (Hlow : (confidence s <? 0.6) = true)
    by (rewrite Hc; now apply score_needs_three_rules).
  split; [exact Hlow|].
  intros symbol md st2. eexists.
  unfold TradingWorkflow.DecisionMaking.
  cbn [TradingWorkflow.analysis_signal TradingWorkflow.analysis_symbol].
  rewrite Hlow, orb_true_r. reflexivity.
Qed.

(** An oversold RSI decides for [buy] against a bearish MACD and a bearish
    EMA alignment, and the two bearish rules still add their weight: the
    signal is [buy] with a confidence that is not below 0.6, enough for
    [DecisionMaking] to go on to a trade. *)
Theorem oversold_outvotes_bearish
    (i : TechnicalIndicators) (st : St World) :
  (rsi i <? 30) = true ->
  (line (macd i) <? signal (macd i)) = true ->
  (histogram (macd i) <? 0) = true ->
  (ema12 (movingAverages i) <? ema26 (movingAverages i)) = true ->
  exists s st',
    generateSignal i st = (Ret s, st')
    /\ action s = buy
    /\ (confidence s <? 0.6) = false.
Proof.
  intros Hrsi Hline Hhist Hema.
  destruct (SignalProps.generateSignal_refines i st)
    as (s & st' & Hrun & _ & Ha & Hc & _).
  exists s, st'. split; [exact Hrun|].
  assert (Hf : exists c d,
             firing i = {| momentum := Some buy; trend := Some sell;
                           alignment := Some sell; confirmation := c;
                           dampening := d |}).
  { exists (Js.gtb (volume i) 500000), (Js.gtb (volatility i) 0.3).
    unfold firing, Js.gtb.
    rewrite Hrsi, Hline, Hhist, Hema.
    rewrite (FloatFacts.ltb_asym Hline), (FloatFacts.ltb_asym Hema).
    reflexivity. }
  destruct Hf as (c & d & Hf).
  rewrite Ha, Hc, Hf. split; [reflexivity | apply score_three_directional].
Qed.

(** [analyzeMarket] returns, after the one entry of its own call. *)
Lemma analyzeMarket_run (symbol timeframe : string) (st : St World) :
  exists s st',
    analyzeMarket symbol timeframe st = (Ret s, st')
    /\ trace st' = (trace st ++ [EvAnalyzeMarket symbol timeframe])%list.
Proof.
  unfold analyzeMarket, try_catch, bind, invoke.
  unfold calculateIndicators, bind, ask, ret.
  repeat match goal with
         | |- context [Math_random ?w] =>
             lazymatch w with
             | context [Math_random] => fail
             | _ => destruct (Math_random w)
             end
         end; cbn [world trace].
  match goal with
  | |- context [generateSignal ?i ?x] =>
      destruct (SignalProps.generateSignal_refines i x)
        as (s & st' & Hrun & Htr & _);
      rewrite Hrun
  end.
  exists s, st'. split; [reflexivity | exact Htr].
Qed.

(** [analyzeMarket] cannot fail: its [catch] is never entered.  For every
    symbol and timeframe it returns a signal with a two-decimal confidence
    between 0 and 0.9 and adds the one entry of its own call to the
    trace. *)
Theorem analyzeMarket_never_fails (symbol timeframe : string) (st : St World) :
  exists s st',
    analyzeMarket symbol timeframe st = (Ret s, st')
    /\ trace st' = (trace st ++ [EvAnalyzeMarket symbol timeframe])%list
    /\ (0 <=? confidence s) = true
    /\ (confidence s <=? 0.9) = true
    /\ TwoDecimals (confidence s).
Proof.
  unfold analyzeMarket, try_catch, bind, invoke.
  unfold calculateIndicators, bind, ask, ret.
  repeat match goal with
         | |- context [Math_random ?w] =>
             lazymatch w with
             | context [Math_random] => fail
             | _ => destruct (Math_random w)
             end
         end; cbn [world trace].
  match goal with
  | |- context [generateSignal ?i ?x] =>
      destruct (SignalProps.generateSignal_refines i x)
        as (s & st' & Hrun & Htr & _ & Hc & _);
      rewrite Hrun
  end.
  exists s, st'. split; [reflexivity|]. split; [exact Htr|].
  rewrite Hc. split; [apply SignalProps.score_bounds|].
  split; [apply score_at_most_090 | apply SignalProps.score_bounds].
Qed.

(** What [generateSignal] returns, and the world it leaves, do not depend
    on the trace it is given. *)
Lemma generateSignal_trace_irrelevant
    (i : TechnicalIndicators) (w : World) (t1 t2 : list Event) :
  fst (generateSignal i {| world := w; trace := t1 |})
  = fst (generateSignal i {| world := w; trace := t2 |})
  /\ world (snd (generateSignal i {| world := w; trace := t1 |}))
     = world (snd (generateSignal i {| world := w; trace := t2 |})).
Proof.
  unfold generateSignal.
  repeat match goal with
         | |- context [match ?E with pair _ _ => _ end] =>
             lazymatch E with
             | context [Math_random] => fail
             | _ => destruct E as [? ?]
             end
         end.
  match goal with a : Action |- _ => destruct a end;
    cbn [Action_eqb negb]; unfold bind, ask, ret;
    repeat (cbn [world trace];
            match goal with
            | |- context [Math_random ?x] => destruct (Math_random x)
            end);
    cbn [world trace fst snd]; split; reflexivity.
Qed.

(** The simulated analysis does not look at what it is asked about: from
    the same state of the random source, [analyzeMarket] returns the same
    signal for any two symbols and timeframes. *)
Theorem analyzeMarket_ignores_symbol
    (symbol1 timeframe1 symbol2 timeframe2 : string) (st : St World) :
  fst (analyzeMarket symbol1 timeframe1 st)
  = fst (analyzeMarket symbol2 timeframe2 st)
  /\ world (snd (analyzeMarket symbol1 timeframe1 st))
     = world (snd (analyzeMarket symbol2 timeframe2 st)).
Proof.
  unfold analyzeMarket, try_catch, bind, invoke.
  unfold calculateIndicators, bind, ask, ret.
  repeat (cbn [world trace];
          match goal with
          | |- context [Math_random ?w] => destruct (Math_random w)
          end).
  cbn [world trace].
  match goal with
  | |- context [generateSignal ?i {| world := ?w; trace := _ |}] =>
      destruct (generateSignal_trace_irrelevant i w
                  (trace st ++ [EvAnalyzeMarket symbol1 timeframe1])%list
                  (trace st ++ [EvAnalyzeMarket symbol2 timeframe2])%list)
        as [Hr Hw]
  end.
  revert Hr Hw.
  repeat match goal with
         | |- context [generateSignal ?i ?x] =>
             destruct (generateSignal i x) as [[?|?] ?]
         end; cbn [fst snd world]; intros Hr Hw;
    try discriminate Hr; inversion Hr; subst;
    cbv beta iota; unfold throw; cbn [fst snd world];
    split; solve [reflexivity | assumption].
Qed.

End Generic.

(** The three-rule threshold on the quiet snapshot, where no rule fires. *)
Lemma fewer_than_three_rules_never_trade_witness :
  (fired_count (firing Demo.quiet) < 3)%nat
  /\ exists s st',
      generateSignal (caps := Demo.capabilities) Demo.quiet Demo.start
      = (Ret s, st')
      /\ (confidence s <? 0.6) = true
      /\ forall symbol marketData st2,
          exists why,
            TradingWorkflow.DecisionMaking (B := Demo.builtins)
              (caps := Demo.capabilities)
              {| TradingWorkflow.analysis_symbol := symbol;
                 TradingWorkflow.analysis_marketData := marketData;
                 TradingWorkflow.analysis_signal := s |} st2
            = (Ret (NoTrade why), st2).
Proof.
  assert (H : (fired_count (firing Demo.quiet) < 3)%nat)
    by (vm_compute; lia).
  split; [exact H|].
  exact (fewer_than_three_rules_never_trade (B := Demo.builtins)
           (caps := Demo.capabilities) Demo.quiet Demo.start H).
Defined.

(** An oversold snapshot with bearish MACD and EMA. *)
Lemma oversold_outvotes_bearish_witness :
  let i := {| rsi := 25;
              macd := {| line := -0.5; signal := 0.1; histogram := -0.6 |};
              movingAverages :=
                {| sma20 := 100; sma50 := 100; ema12 := 90; ema26 := 110 |};
              volume := 1000;
              volatility := 0.1 |} in
  (rsi i <? 30) = true
  /\ (line (macd i) <? signal (macd i)) = true
  /\ (histogram (macd i) <? 0) = true
  /\ (ema12 (movingAverages i) <? ema26 (movingAverages i)) = true
  /\ exists s st',
      generateSignal (caps := Demo.capabilities) i Demo.start = (Ret s, st')
      /\ action s = buy
      /\ (confidence s <? 0.6) = false.
Proof.
  cbv zeta. repeat (split; [reflexivity|]).
  apply (oversold_outvotes_bearish (caps := Demo.capabilities));
    reflexivity.
Defined.

(** That snapshot in full: a buy at 0.75 whose reason names two bearish
    findings. *)
Example oversold_bearish_signal :
  fst (generateSignal (caps := Demo.capabilities)
         {| rsi := 25;
            macd := {| line := -0.5; signal := 0.1; histogram := -0.6 |};
            movingAverages :=
              {| sma20 := 100; sma50 := 100; ema12 := 90; ema26 := 110 |};
            volume := 1000;
            volatility := 0.1 |} Demo.start)
  = Ret {| action := buy; confidence := 0.75;
           reason := "RSI oversold. MACD bearish crossover. EMA bearish alignment.";
           suggestedAmount := Some 350;
           targetPrice := Some 103.75;
           stopLoss := Some 97.5 |}.
Proof. vm_compute. reflexivity. Qed.

End SignalExtras.

(** ** The position sizer inside [DecisionMaking] *)

Module SizingExtras.

Import TradingTools TradingWorkflow SF Measures.

Open Scope float_scope.

(** [Math.min] of two numbers that are zero or more is zero or more, and
    at most its second argument. *)
Lemma Math_min_bounds (a b : float) :
  (0 <=? a) = true -> (0 <=? b) = true ->
  (0 <=? Js.Math_min a b) = true /\ (Js.Math_min a b <=? b) = true.
Proof.
  intros Ha Hb.
  pose proof (RoundingFacts.nonneg_is_number Ha) as Na.
  pose proof (RoundingFacts.nonneg_is_number Hb) as Nb.
  destruct (FloatFacts.Math_min_cases a b)
    as [[Hn _] | [(_ & _ & ->) | (_ & _ & Hlt & ->)]].
  - rewrite Na, Nb in Hn. discriminate Hn.
  - split; [exact Hb | now apply FloatFacts.leb_refl].
  - split; [exact Ha | now apply FloatFacts.not_ltb_leb].
Qed.

(** With the risk of 1.5 and a stop-loss of 3 or 2, the size computed for
    a balance that is zero or more is a number between zero and half the
    balance. *)
Lemma fixed_risk_size_bounded (b : float) (buying : bool) :
  (0 <=? b) = true ->
  let size := Js.Math_min (b * (1.5 / 100) / ((if buying then 3 else 2) / 100))
                          (b * 0.5) in
  (0 <=? size) = true /\ (size <=? b * 0.5) = true.
Proof.
  intros Hb. cbv zeta. apply Math_min_bounds.
  - apply RoundingFacts.div_by_constant;
      [apply RoundingFacts.mul_by_constant; [exact Hb | reflexivity]|].
    destruct buying; reflexivity.
  - apply RoundingFacts.mul_by_constant; [exact Hb | reflexivity].
Qed.

Section Generic.

Context {World MarketData : Type} {B : Builtins}
        {caps : Capabilities World MarketData}.

(** Bounded risk per decision: when the signal is [buy] or [sell] with a
    confidence not below 0.6 and the portfolio reports a balance of zero
    or more, [DecisionMaking] returns a trade decision whose position size
    is a number between 0 and half that balance; it has fetched the
    balance and called the sizer with risk 1.5 and stop-loss 3 (buy) or 2
    (sell), and nothing else. *)
Theorem DecisionMaking_position_bounded
    (a : Analysis MarketData) (st : St World) (p : Portfolio) (w' : World) :
  action (analysis_signal a) <> hold ->
  (confidence (analysis_signal a) <? 0.6) = false ->
  getPortfolioBalance (world st) = (Ret p, w') ->
  (0 <=? totalBalance p) = true ->
  exists size st',
    DecisionMaking a st
    = (Ret (Trade (action (analysis_signal a)) (analysis_symbol a) size
                  (reason (analysis_signal a))
                  (confidence (analysis_signal a))), st')
    /\ (0 <=? size) = true
    /\ (size <=? totalBalance p * 0.5) = true
    /\ trace st'
       = (trace st
          ++ [EvGetPortfolioBalance;
              EvCalculatePositionSize (totalBalance p) 1.5
                (if Action_eqb (action (analysis_signal a)) buy
                 then 3 else 2)])%list.
Proof.
  intros Hact Hconf Hbal Hnonneg.
  assert (Hh : Action_eqb (action (analysis_signal a)) hold = false)
    by (destruct (action (analysis_signal a)); simpl; congruence).
  unfold DecisionMaking. rewrite Hh, Hconf. cbn [orb].
  unfold bind at 1. unfold call. rewrite Hbal.
  unfold bind. rewrite SizerProps.calculatePositionSize_run.
  cbn [world trace]. unfold ret.
  do 2 eexists. split; [reflexivity|].
  destruct (fixed_risk_size_bounded
              (Action_eqb (action (analysis_signal a)) buy) Hnonneg)
    as [H0 H1].
  split; [exact H0|]. split; [exact H1|].
  rewrite <- app_assoc. reflexivity.
Qed.

End Generic.

(** The bound on a confident buy signal in the demonstration world, where
    the balance is 10000. *)
Lemma DecisionMaking_position_bounded_witness :
  let a := {| analysis_symbol := "ETH/USDC"%string;
              analysis_marketData := tt;
              analysis_signal :=
                {| action := buy; confidence := 0.9;
                   reason := "RSI oversold."%string;
                   suggestedAmount := Some 350; targetPrice := Some 103.75;
                   stopLoss := Some 97.5 |} |} in
  action (analysis_signal a) <> hold
  /\ (confidence (analysis_signal a) <? 0.6) = false
  /\ (0 <=? 10000) = true
  /\ exists size st',
      DecisionMaking (B := Demo.builtins) (caps := Demo.capabilities) a
        Demo.start
      = (Ret (Trade buy "ETH/USDC" size "RSI oversold." 0.9), st')
      /\ (0 <=? size) = true
      /\ (size <=? 10000 * 0.5) = true
      /\ trace st' = [EvGetPortfolioBalance;
                      EvCalculatePositionSize 10000 1.5 3].
Proof.
  cbv zeta. split; [discriminate|]. do 2 (split; [reflexivity|]).
  apply DecisionMaking_position_bounded
    with (p := {| totalBalance := 10000 |}) (w' := world Demo.start);
    [discriminate | reflexivity | reflexivity | reflexivity].
Defined.

End SizingExtras.

(** ** [monitorTrade] *)

Module MonitorExtras.

Import TradeMonitor SF Measures.

Open Scope float_scope.

Lemma ltb_not_leb (a b : float) : (a <? b) = true -> (b <=? a) = false.
Proof.
  rewrite ltb_spec, leb_spec. unfold SFltb, SFleb.
  rewrite (FloatFacts.SFcompare_antisym (Prim2SF a) (Prim2SF b)).
  destruct (SFcompare (Prim2SF a) (Prim2SF b)) as [[]|]; simpl; congruence.
Qed.

(** [x - x] is zero or NaN. *)
Lemma SFsub_diag (x : spec_float) : SFzero_or_nan (SF64sub x x) = true.
Proof.
  unfold SF64sub.
  destruct x as [[]|[]| |s m e]; simpl; try reflexivity.
  rewrite Z.sub_diag. reflexivity.
Qed.

Lemma SFdiv_zero_or_nan (z x : spec_float) :
  SFzero_or_nan z = true -> SFzero_or_nan (SF64div z x) = true.
Proof. destruct z, x; simpl; try discriminate; reflexivity. Qed.

Lemma SFmul_zero_or_nan (z c : spec_float) :
  SFzero_or_nan z = true -> SFfinite_plus c = true ->
  SFzero_or_nan (SF64mul z c) = true.
Proof. destruct z, c as [| | |[]]; simpl; try discriminate; reflexivity. Qed.

(** The profit-and-loss percentage of a trade at its entry price is zero
    or NaN: neither above 20 nor below -10. *)
Lemma pnl_at_entry (x : float) :
  Js.gtb ((x - x) / x * 100) 20 = false /\ ((x - x) / x * 100 <? -10) = false.
Proof.
  assert (H : SFzero_or_nan (Prim2SF ((x - x) / x * 100)) = true).
  { rewrite mul_spec, div_spec, sub_spec.
    apply SFmul_zero_or_nan; [|reflexivity].
    apply SFdiv_zero_or_nan, SFsub_diag. }
  unfold Js.gtb. rewrite !ltb_spec.
  destruct (Prim2SF ((x - x) / x * 100)) as [s|s| |s m e];
    try discriminate H; split; reflexivity.
Qed.

(** A trade whose current price lies strictly between its stop-loss and
    its take-profit level (each may be absent) is never closed: the
    recommendation is [hold], [partial_close] or [review]. *)
Theorem monitorTrade_inside_band
    (id : string) (entry current : float) (stop target : option float) :
  strictly_below stop current ->
  strictly_above target current ->
  recommendation (monitorTrade id entry current stop target) <> "close"%string.
Proof.
  intros Hstop Htarget.
  assert (Es : and_then stop (fun stopLoss => current <=? stopLoss) = false).
  { destruct stop as [sl|]; [|reflexivity]. simpl in *.
    rewrite (ltb_not_leb Hstop). apply andb_false_r. }
  assert (Et : and_then target (fun takeProfit => takeProfit <=? current)
               = false).
  { destruct target as [tp|]; [|reflexivity]. simpl in *.
    rewrite (ltb_not_leb Htarget). apply andb_false_r. }
  unfold monitorTrade. rewrite Es, Et.
  destruct (Js.gtb _ 20); [simpl; discriminate|].
  destruct (_ <? -10); simpl; discriminate.
Qed.

(** A stop-loss or take-profit level that is 0, -0 or NaN counts as not
    given: the result is the one obtained without it. *)
Theorem monitorTrade_falsy_level_ignored
    (id : string) (entry current level : float) (other : option float) :
  ToBoolean level = false ->
  monitorTrade id entry current (Some level) other
  = monitorTrade id entry current None other
  /\ monitorTrade id entry current other (Some level)
     = monitorTrade id entry current other None.
Proof.
  intros Hfalsy. unfold monitorTrade, and_then. rewrite Hfalsy.
  split; reflexivity.
Qed.

(** With no stop-loss and no take-profit, a trade whose current price
    equals its entry price is [hold], whatever that price is: a finite
    price, zero (where the percentage is NaN, not an error), infinity or
    NaN. *)
Theorem monitorTrade_at_entry_holds (id : string) (px : float) :
  recommendation (monitorTrade id px px None None) = "hold"%string
  /\ reason (monitorTrade id px px None None)
     = "Trade within normal parameters"%string.
Proof.
  unfold monitorTrade, and_then.
  destruct (pnl_at_entry px) as [Hhi Hlo]. rewrite Hhi, Hlo.
  split; reflexivity.
Qed.

(** A price of 98 between a stop at 95 and a target at 110. *)
Lemma monitorTrade_inside_band_witness :
  strictly_below (Some 95) 98
  /\ strictly_above (Some 110) 98
  /\ recommendation (monitorTrade "t1" 100 98 (Some 95) (Some 110))
     <> "close"%string.
Proof.
  assert (Hs : strictly_below (Some 95) 98) by reflexivity.
  assert (Ht : strictly_above (Some 110) 98) by reflexivity.
  split; [exact Hs|]. split; [exact Ht|].
  apply monitorTrade_inside_band; assumption.
Defined.

(** A stop-loss at 0 on a price that has fallen to 0: not triggered. *)
Lemma monitorTrade_falsy_level_ignored_witness :
  ToBoolean 0 = false
  /\ monitorTrade "t1" 100 0 (Some 0) None = monitorTrade "t1" 100 0 None None
  /\ monitorTrade "t1" 100 0 None (Some 0) = monitorTrade "t1" 100 0 None None.
Proof.
  assert (H : ToBoolean 0 = false) by reflexivity.
  split; [exact H|].
  apply monitorTrade_falsy_level_ignored; exact H.
Defined.

(** The four recommendations on concrete trades. *)
Example monitorTrade_recommendations :
  recommendation (monitorTrade "t1" 100 94 (Some 95) (Some 110)) = "close"%string
  /\ reason (monitorTrade "t1" 100 94 (Some 95) (Some 110))
     = "Stop loss triggered"%string
  /\ reason (monitorTrade "t1" 100 111 (Some 95) (Some 110))
     = "Take profit target reached"%string
  /\ recommendation (monitorTrade "t1" 100 125 None None)
     = "partial_close"%string
  /\ recommendation (monitorTrade "t1" 100 85 None None) = "review"%string
  /\ recommendation (monitorTrade "t1" 100 0 (Some 0) None) = "review"%string
  /\ pnlPercentage (monitorTrade "t1" 100 125 None None) = 25.
Proof. repeat split; reflexivity. Qed.

End MonitorExtras.

(** ** The workflow as a whole *)

Module WorkflowExtras.

Import TradingWorkflow Obs Measures.

Open Scope float_scope.
Open Scope list_scope.

Section Generic.

Context {World MarketData : Type} {B : Builtins}
        {caps : Capabilities World MarketData}.

(** As the module stands, [TradeExecution] has no effect: whatever the
    decision, it returns without a call and leaves the state as it was. *)
Lemma TradeExecution_no_effect (d : Decision) (st : St World) :
  exists r,
    TradeExecution d st = (Ret r, st)
    /\ match r with
       | Some x => executed x = false
       | None => exists s p r c, d = Trade hold s p r c
       end.
Proof.
  destruct d as [why | [] s p r c]; eexists; (split; [reflexivity|]);
    try reflexivity.
  do 4 eexists. reflexivity.
Qed.

(** The two ways [MarketAnalysis] can go, by the answer of the market-data
    capability. *)
Lemma MarketAnalysis_cases
    (symbol : string) (timeframe : option string) (st : St World) :
  match getMarketData symbol (world st) with
  | (Throw e, w') =>
      MarketAnalysis symbol timeframe st
      = (Throw e, {| world := w';
                     trace := trace st ++ [EvGetMarketData symbol] |})
  | (Ret marketData, w') =>
      exists s st',
        MarketAnalysis symbol timeframe st
        = (Ret {| analysis_symbol := symbol;
                  analysis_marketData := marketData;
                  analysis_signal := s |}, st')
        /\ trace st'
           = trace st
             ++ [EvGetMarketData symbol;
                 EvAnalyzeMarket symbol
                   (match timeframe with Some t => t | None => "1h"%string end)]
  end.
Proof.
  destruct (getMarketData symbol (world st)) as [[md|e] w'] eqn:Hmd;
    unfold MarketAnalysis; unfold bind at 1; unfold call; rewrite Hmd;
    [|reflexivity].
  unfold bind.
  match goal with
  | |- context [TradingTools.analyzeMarket ?a ?b ?x] =>
      destruct (SignalExtras.analyzeMarket_run a b x)
        as (s & st' & Hrun & Htr);
      rewrite Hrun
  end.
  exists s, st'. split; [reflexivity|].
  rewrite Htr. cbn [trace]. rewrite <- app_assoc. reflexivity.
Qed.

(** [MarketAnalysis] fails exactly when the market-data capability fails:
    the error is passed on as it is and the signal engine is not run.
    Otherwise it returns the symbol, the market data and a signal, after
    the two calls [getMarketData] and [analyzeMarket] (with the timeframe
    ['1h'] when none is given). *)
Theorem MarketAnalysis_outcomes
    (symbol : string) (timeframe : option string) (st : St World) :
  match getMarketData symbol (world st) with
  | (Throw e, w') =>
      MarketAnalysis symbol timeframe st
      = (Throw e, {| world := w';
                     trace := trace st ++ [EvGetMarketData symbol] |})
  | (Ret marketData, w') =>
      exists s st',
        MarketAnalysis symbol timeframe st
        = (Ret {| analysis_symbol := symbol;
                  analysis_marketData := marketData;
                  analysis_signal := s |}, st')
        /\ trace st'
           = trace st
             ++ [EvGetMarketData symbol;
                 EvAnalyzeMarket symbol
                   (match timeframe with Some t => t | None => "1h"%string end)]
  end.
Proof. apply MarketAnalysis_cases. Qed.

(** The three ways [DecisionMaking] can go. *)
Lemma DecisionMaking_cases (a : Analysis MarketData) (st : St World) :
  let sig := analysis_signal a in
  (Action_eqb (action sig) hold || (confidence sig <? 0.6) = true
   /\ exists why, DecisionMaking a st = (Ret (NoTrade why), st))
  \/ (Action_eqb (action sig) hold || (confidence sig <? 0.6) = false
      /\ match getPortfolioBalance (world st) with
         | (Throw e, w') =>
             DecisionMaking a st
             = (Throw e, {| world := w';
                            trace := trace st ++ [EvGetPortfolioBalance] |})
         | (Ret p, w') =>
             exists size stopLoss,
               DecisionMaking a st
               = (Ret (Trade (action sig) (analysis_symbol a) size
                             (reason sig) (confidence sig)),
                  {| world := w';
                     trace := trace st
                              ++ [EvGetPortfolioBalance;
                                  EvCalculatePositionSize (totalBalance p)
                                    1.5 stopLoss] |})
               /\ action sig <> hold
         end).
Proof.
  cbv zeta. unfold DecisionMaking.
  destruct (Action_eqb (action (analysis_signal a)) hold
            || (confidence (analysis_signal a) <? 0.6)) eqn:Hguard.
  { left. split; [reflexivity|]. eexists. reflexivity. }
  right. split; [reflexivity|].
  destruct (getPortfolioBalance (world st)) as [[p|e] w'] eqn:Hp;
    unfold bind at 1; unfold call; rewrite Hp; [|reflexivity].
  unfold bind. rewrite SizerProps.calculatePositionSize_run.
  cbn [world trace]. do 2 eexists. split.
  - unfold ret. rewrite <- app_assoc. reflexivity.
  - apply orb_false_iff in Hguard. destruct Hguard as [Hh _].
    intros E. rewrite E in Hh. discriminate Hh.
Qed.

(** The outcomes of [DecisionMaking]: a decision not to trade, without any
    call, when the action is [hold] or the confidence is below 0.6;
    otherwise the failure of the portfolio capability, passed on before
    any sizing, or a trade decision, whose action is never [hold]. *)
Theorem DecisionMaking_outcomes (a : Analysis MarketData) (st : St World) :
  let sig := analysis_signal a in
  (Action_eqb (action sig) hold || (confidence sig <? 0.6) = true
   /\ exists why, DecisionMaking a st = (Ret (NoTrade why), st))
  \/ (Action_eqb (action sig) hold || (confidence sig <? 0.6) = false
      /\ match getPortfolioBalance (world st) with
         | (Throw e, w') =>
             DecisionMaking a st
             = (Throw e, {| world := w';
                            trace := trace st ++ [EvGetPortfolioBalance] |})
         | (Ret p, w') =>
             exists size stopLoss,
               DecisionMaking a st
               = (Ret (Trade (action sig) (analysis_symbol a) size
                             (reason sig) (confidence sig)),
                  {| world := w';
                     trace := trace st
                              ++ [EvGetPortfolioBalance;
                                  EvCalculatePositionSize (totalBalance p)
                                    1.5 stopLoss] |})
               /\ action sig <> hold
         end).
Proof. apply DecisionMaking_cases. Qed.

(** No run of the workflow trades or reports success.  Whatever the
    capabilities answer, [tradingWorkflow] requests no quote and submits
    no trade, and when it returns its report has status [skipped] and
    carries no execution; it can only fail with the error of the
    market-data or of the portfolio capability. *)
Theorem tradingWorkflow_never_trades
    (symbol : string) (timeframe : option string) (st : St World) :
  exists r st' evs,
    tradingWorkflow symbol timeframe st = (r, st')
    /\ trace st' = trace st ++ evs
    /\ existsb is_trade_call evs = false
    /\ match r with
       | Ret report => status report = skipped /\ execution report = None
       | Throw e =>
           (exists w, getMarketData symbol (world st) = (Throw e, w))
           \/ (exists w w', getPortfolioBalance w = (Throw e, w'))
       end.
Proof.
  rewrite WorkflowProps.tradingWorkflow_after_analysis. unfold bind at 1.
  pose proof (MarketAnalysis_cases symbol timeframe st) as HM.
  destruct (getMarketData symbol (world st)) as [[md|e] w1] eqn:Hmd.
  2: { rewrite HM. do 3 eexists. split; [reflexivity|].
       split; [reflexivity|]. split; [reflexivity|]. left. eauto. }
  destruct HM as (s & st1 & Hrun & Htr1). rewrite Hrun.
  unfold after_analysis. unfold bind at 1.
  set (a := {| analysis_symbol := symbol; analysis_marketData := md;
               analysis_signal := s |}).
  destruct (DecisionMaking_cases a st1)
    as [(_ & why & Hd) | (_ & Hd)]; cbv zeta in Hd.
  - rewrite Hd. unfold bind.
    destruct (TradeExecution_no_effect (NoTrade why) st1) as (r & Hr & _).
    change (TradeExecution (NoTrade why) st1) with (Ret (Some (Skipped why)), st1).
    cbn. do 3 eexists. split; [reflexivity|]. split; [exact Htr1|].
    split; [reflexivity|]. split; reflexivity.
  - destruct (getPortfolioBalance (world st1)) as [[p|e] w2] eqn:Hp.
    2: { rewrite Hd. do 3 eexists. split; [reflexivity|].
         split; [cbn [trace]; rewrite Htr1, <- app_assoc; reflexivity|].
         split; [reflexivity|]. right. eauto. }
    destruct Hd as (size & sl & Hd & Hact). rewrite Hd.
    unfold bind. cbn [analysis_signal analysis_symbol a] in *.
    destruct (action s) eqn:Ha; [| |congruence];
      cbn; do 3 eexists; (split; [reflexivity|]);
      (split; [rewrite Htr1, <- app_assoc; reflexivity|]);
      (split; [reflexivity|]); split; reflexivity.
Qed.

End Generic.

(** The workflow on the demonstration world, where the analysis is a draw
    of the random source: market data, analysis, then the skip. *)
Example tradingWorkflow_demo :
  let run := tradingWorkflow (B := Demo.builtins) (caps := Demo.capabilities)
               "ETH/USDC" None Demo.start in
  trace (snd run) = [EvGetMarketData "ETH/USDC";
                     EvAnalyzeMarket "ETH/USDC" "1h"]
  /\ fst run = Ret {| status := skipped;
                      message := "Low confidence (<number>)";
                      execution := None |}.
Proof. split; vm_compute; reflexivity. Qed.

(** With market data unavailable the workflow fails with that error, after
    the one call. *)
Example tradingWorkflow_offline :
  tradingWorkflow (B := Demo.builtins) (caps := Demo2.offline)
    "ETH/USDC" None Demo.start
  = (Throw (Error "timeout"),
     {| world := world Demo.start;
        trace := [EvGetMarketData "ETH/USDC"] |}).
Proof. vm_compute. reflexivity. Qed.

End WorkflowExtras.

(** ** The ledger queries *)

Module LedgerExtras.

Import Ledger Measures.

Open Scope float_scope.
Open Scope list_scope.

Lemma filter_shorter {A} (f : A -> bool) (l : list A) :
  (List.length (filter f l) <= List.length l)%nat.
Proof. induction l as [|x l IH]; simpl; [|destruct (f x); simpl]; lia. Qed.

Lemma filter_again {A} (f : A -> bool) (l : list A) :
  filter f (filter f l) = filter f l.
Proof.
  induction l as [|x l IH]; simpl; [reflexivity|].
  destruct (f x) eqn:E; simpl; [rewrite E, IH|]; auto.
Qed.

(** The win rate of [summarize] is [win_rate] of its two counts. *)
Lemma summarize_win_rate (memories : list Data) :
  winRate (summarize memories)
  = win_rate (profitableTrades (summarize memories))
             (totalTrades (summarize memories)).
Proof. reflexivity. Qed.

Lemma win_rates_bounded_sound (n p t : nat) :
  win_rates_bounded n = true -> (p <= t <= n)%nat ->
  (0 <=? win_rate p t) = true /\ (win_rate p t <=? 100) = true.
Proof.
  unfold win_rates_bounded. intros H [Hp Ht].
  rewrite forallb_forall in H.
  assert (H1 := H t ltac:(apply in_seq; lia)).
  rewrite forallb_forall in H1.
  assert (H2 := H1 p ltac:(apply in_seq; lia)).
  now apply andb_true_iff in H2.
Qed.

Lemma summarize_counts_le (memories : list Data) :
  (profitableTrades (summarize memories) <= totalTrades (summarize memories)
   <= List.length memories)%nat.
Proof. unfold summarize; simpl. split; apply filter_shorter. Qed.

(** The counts of the analytics are ordered: profitable trades are among
    the executed trades, which are among the memories found. *)
Theorem summarize_counts (memories : list Data) :
  (profitableTrades (summarize memories) <= totalTrades (summarize memories)
   <= List.length memories)%nat.
Proof. apply summarize_counts_le. Qed.

(** Decisions that were not executed, and records without a result, do
    not influence the analytics: they are the analytics of the executed
    trades alone. *)
Theorem summarize_ignores_unexecuted (memories : list Data) :
  summarize memories = summarize (filter was_executed memories).
Proof. unfold summarize. rewrite filter_again. reflexivity. Qed.

(** With no executed trade among the memories (in particular with no
    memory at all) every figure is zero: the rates are not computed as
    0/0. *)
Theorem summarize_nothing_executed (memories : list Data) :
  filter was_executed memories = [] ->
  summarize memories
  = {| totalTrades := 0; profitableTrades := 0; winRate := 0;
       totalProfit := 0; averageProfit := 0 |}.
Proof. intros H. unfold summarize. rewrite H. reflexivity. Qed.

Section Generic.

Context {World : Type} {S : SearchCapability World}.

(** [getPerformanceAnalytics] on a search that fails: the failure comes
    back as the error ['Failed to search memories: <error>'] and nothing
    is computed; on a search that answers, the analytics of the answer. *)
Lemma getPerformanceAnalytics_run (symbol : option string) (st : St World) :
  match apiClient_search (analytics_params symbol) (world st) with
  | (Ret memories, w) =>
      getPerformanceAnalytics symbol st
      = (Ret (summarize memories), {| world := w; trace := trace st |})
  | (Throw e, w) =>
      getPerformanceAnalytics symbol st
      = (Throw (Error ("Failed to search memories: " ++ error_toString e)),
         {| world := w; trace := trace st |})
  end.
Proof.
  unfold getPerformanceAnalytics, bind, search, try_catch, throw.
  fold (analytics_params symbol).
  destruct (apiClient_search (analytics_params symbol) (world st))
    as [[ms|e] w]; reflexivity.
Qed.

(** When the store answers a search limited to 100 with at most 100
    memories, the win rate [getPerformanceAnalytics] returns lies between
    0 and 100 and its counts are at most 100; it fails only when the
    search fails. *)
Theorem getPerformanceAnalytics_win_rate_bounded
    (symbol : option string) (st : St World) :
  (forall params w memories w',
      apiClient_search params w = (Ret memories, w') ->
      (0 <= limit params)%Z ->
      (Z.of_nat (List.length memories) <= limit params)%Z) ->
  exists r st',
    getPerformanceAnalytics symbol st = (r, st')
    /\ match r with
       | Ret a =>
           (0 <=? winRate a) = true
           /\ (winRate a <=? 100) = true
           /\ (profitableTrades a <= totalTrades a <= 100)%nat
       | Throw _ =>
           exists e w,
             apiClient_search (analytics_params symbol) (world st)
             = (Throw e, w)
       end.
Proof.
  intros Hlimit.
  pose proof (getPerformanceAnalytics_run symbol st) as Hrun.
  destruct (apiClient_search (analytics_params symbol) (world st))
    as [[ms|e] w] eqn:Hs; rewrite Hrun; do 2 eexists;
    (split; [reflexivity|]); cbv beta iota.
  2: { exists e, w. reflexivity. }
  pose proof (Hlimit _ _ _ _ Hs) as Hlen. cbn [limit analytics_params] in Hlen.
  specialize (Hlen ltac:(lia)).
  pose proof (summarize_counts_le ms) as [Hp Ht].
  assert (Hb : (profitableTrades (summarize ms) <= totalTrades (summarize ms)
                <= 100)%nat) by lia.
  rewrite summarize_win_rate.
  assert (Hall : win_rates_bounded 100 = true) by (vm_compute; reflexivity).
  destruct (win_rates_bounded_sound Hall Hb) as [H0 H1].
  split; [exact H0|]. split; [exact H1 | exact Hb].
Qed.

(** Writer and reader agree on the record: the payload that
    [storeTradingDecision] hands to the store, read back by the mapping of
    [getTradingHistory], is the entry that was stored, provided the date
    parser inverts [toISOString] on its timestamp. *)
Theorem history_round_trip {MarketData : Type} {B : Builtins}
    {caps : Capabilities World MarketData}
    (entry : TradingMemoryEntry) (st : St World) :
  Date_parse (Date_toISOString (entry_timestamp entry))
  = Some (entry_timestamp entry) ->
  exists r st' key data,
    TradingMemory.storeTradingDecision entry st = (r, st')
    /\ trace st' = trace st ++ [EvMemoryStore key data]
    /\ to_history (to_data data)
       = {| history_timestamp := Some (entry_timestamp entry);
            history_symbol := Some (entry_symbol entry);
            history_action := Some (entry_action entry);
            history_signal := entry_signal entry;
            history_indicators := entry_indicators entry;
            history_result := entry_result entry;
            history_notes := entry_notes entry |}.
Proof.
  intros Hdate.
  unfold TradingMemory.storeTradingDecision, bind, ask.
  destruct (Date_now (world st)) as [now w]; cbn [world trace].
  match goal with
  | |- context [TradingMemory.store ?k ?d ?s] =>
      destruct (AgentProps.store_trace k d s) as (r & st' & Hrun & Htr);
      rewrite Hrun
  end.
  do 4 eexists. split; [reflexivity|]. split; [exact Htr|].
  unfold to_history, to_data, new_Date. cbn. rewrite Hdate. reflexivity.
Qed.

End Generic.

(** The analytics of the demonstration history: four executed trades with
    profits 10, -5, 20 and 0 (and one decision not executed, ignored). *)
Example summarize_history :
  summarize Demo2.history
  = {| totalTrades := 4; profitableTrades := 2; winRate := 50;
       totalProfit := 25; averageProfit := 6.25 |}.
Proof. vm_compute. reflexivity. Qed.

(** No executed trade: two decisions that were not executed. *)
Lemma summarize_nothing_executed_witness :
  let memories := [Demo2.decided false (Some 7); Demo2.decided false None] in
  filter was_executed memories = []
  /\ summarize memories
     = {| totalTrades := 0; profitableTrades := 0; winRate := 0;
          totalProfit := 0; averageProfit := 0 |}.
Proof.
  cbv zeta.
  assert (H : filter was_executed
                [Demo2.decided false (Some 7); Demo2.decided false None] = [])
    by reflexivity.
  split; [exact H | exact (summarize_nothing_executed _ H)].
Defined.

(** The win-rate bound on the demonstration history of five records. *)
Lemma getPerformanceAnalytics_win_rate_bounded_witness :
  (forall params w memories w',
      apiClient_search (SearchCapability := Demo2.search_in Demo2.history)
        params w = (Ret memories, w') ->
      (0 <= limit params)%Z ->
      (Z.of_nat (List.length memories) <= limit params)%Z)
  /\ exists r st',
      getPerformanceAnalytics (S := Demo2.search_in Demo2.history) None
        Demo.start = (r, st')
      /\ match r with
         | Ret a =>
             (0 <=? winRate a) = true
             /\ (winRate a <=? 100) = true
             /\ (profitableTrades a <= totalTrades a <= 100)%nat
         | Throw _ =>
             exists e w,
               apiClient_search
                 (SearchCapability := Demo2.search_in Demo2.history)
                 (analytics_params None) (world Demo.start)
               = (Throw e, w)
         end.
Proof.
  assert (H : forall params w memories w',
             apiClient_search (SearchCapability := Demo2.search_in Demo2.history)
               params w = (Ret memories, w') ->
             (0 <= limit params)%Z ->
             (Z.of_nat (List.length memories) <= limit params)%Z).
  { intros params w memories w' E Hl. cbn in E. inversion E. subst.
    pose proof (firstn_le_length (Z.to_nat (limit params)) Demo2.history).
    lia. }
  split; [exact H|].
  exact (getPerformanceAnalytics_win_rate_bounded
           (S := Demo2.search_in Demo2.history) None Demo.start H).
Defined.

(** The analytics the demonstration store returns. *)
Example getPerformanceAnalytics_demo :
  fst (getPerformanceAnalytics (S := Demo2.search_in Demo2.history) None
         Demo.start)
  = Ret {| totalTrades := 4; profitableTrades := 2; winRate := 50;
           totalProfit := 25; averageProfit := 6.25 |}.
Proof. vm_compute. reflexivity. Qed.

(** The round trip of a decision stored at 1000000 milliseconds. *)
Lemma history_round_trip_witness :
  let entry := {| entry_timestamp := 1000000;
                  entry_symbol := "ETH/USDC";
                  entry_action := "buy";
                  entry_signal := None;
                  entry_indicators := None;
                  entry_result :=
                    Some {| result_executed := true; result_price := None;
                            result_amount := None; result_profit := None |};
                  entry_notes := Some "Strong BUY signal"%string |} in
  Date_parse (SearchCapability := Demo2.search_in [])
    (Date_toISOString (Builtins := Demo2.builtins) (entry_timestamp entry))
  = Some (entry_timestamp entry)
  /\ exists r st' key data,
      TradingMemory.storeTradingDecision (B := Demo2.builtins)
        (caps := Demo.capabilities) entry Demo.start = (r, st')
      /\ trace st' = trace Demo.start ++ [EvMemoryStore key data]
      /\ to_history (S := Demo2.search_in []) (to_data data)
         = {| history_timestamp := Some (entry_timestamp entry);
              history_symbol := Some (entry_symbol entry);
              history_action := Some (entry_action entry);
              history_signal := entry_signal entry;
              history_indicators := entry_indicators entry;
              history_result := entry_result entry;
              history_notes := entry_notes entry |}.
Proof.
  intros entry.
  assert (H : Date_parse (SearchCapability := Demo2.search_in [])
                (Date_toISOString (Builtins := Demo2.builtins)
                   (entry_timestamp entry))
              = Some (entry_timestamp entry)) by reflexivity.
  split; [exact H|].
  exact (history_round_trip (S := Demo2.search_in []) (B := Demo2.builtins)
           (caps := Demo.capabilities) entry Demo.start H).
Defined.

End LedgerExtras.

(** ** The agent, continued *)

Module AgentExtras.

Import SlothfulTrader Obs Measures.

Open Scope list_scope.

(** *** Substrings *)

Lemma prefix_app (n b : string) : prefix n (n ++ b)%string = true.
Proof.
  induction n as [|c n IH]; simpl; [destruct b; reflexivity|].
  destruct (ascii_dec c c); [exact IH | congruence].
Qed.

Lemma includes_unfold (n hay : string) :
  Str.includes n hay
  = if prefix n hay then true
    else match hay with
         | EmptyString => false
         | String _ rest => Str.includes n rest
         end.
Proof. destruct hay; reflexivity. Qed.

Lemma includes_here (n b : string) : Str.includes n (n ++ b)%string = true.
Proof. rewrite includes_unfold, prefix_app. reflexivity. Qed.

Lemma includes_later (n a b : string) :
  Str.includes n b = true -> Str.includes n (a ++ b)%string = true.
Proof.
  intros H. induction a as [|c a IH]; [exact H|].
  change (String c a ++ b)%string with (String c (a ++ b)%string).
  rewrite includes_unfold, IH.
  destruct (prefix n (String c (a ++ b))); reflexivity.
Qed.

Lemma toLowerCase_app (a b : string) :
  Str.toLowerCase (a ++ b)%string
  = (Str.toLowerCase a ++ Str.toLowerCase b)%string.
Proof. induction a as [|c a IH]; simpl; [|rewrite IH]; reflexivity. Qed.

Section Generic.

Context {World MarketData : Type} {B : Builtins}
        {caps : Capabilities World MarketData}.

(** Error containment: whatever the agent, the clock and the memory
    service do, [analyzeTradingPair] returns; the object it leaves differs
    from the one it found at most in [lastTradeTimestamp]. *)
Theorem analyzeTradingPair_never_throws
    (self : SlothfulTrader) (symbol : string) (st : St World) :
  exists self' st',
    analyzeTradingPair self symbol st = (Ret self', st')
    /\ isActive self' = isActive self
    /\ tradingPairs self' = tradingPairs self
    /\ cooldownPeriod self' = cooldownPeriod self.
Proof.
  destruct (AgentProps.analyzeTradingPair_cases self symbol st)
    as (self' & st' & evs & Hrun & _ & Hcases).
  exists self', st'. split; [exact Hrun|].
  cbv zeta in Hcases.
  destruct Hcases as [(_ & -> & _) | [(_ & -> & _) | (_ & -> & _)]];
    repeat split; reflexivity.
Qed.

(** Whenever the agent was asked to carry out a decision, the cooldown
    starts at the time read on entry, whether or not the decision was
    carried out or recorded. *)
Theorem decision_attempt_starts_cooldown
    (self self' : SlothfulTrader) (symbol : string) (st st' : St World)
    (evs : list Event) :
  analyzeTradingPair self symbol st = (Ret self', st') ->
  trace st' = trace st ++ evs ->
  existsb is_decision evs = true ->
  lastTradeTimestamp self' = fst (Date_now (world st)).
Proof.
  intros Hrun Htr Hdec.
  destruct (AgentProps.analyzeTradingPair_cases self symbol st)
    as (x & y & evs' & Hrun' & Htr' & Hcases).
  rewrite Hrun in Hrun'. inversion Hrun'; subst x y.
  rewrite Htr in Htr'. apply app_inv_head in Htr'. subst evs'.
  cbv zeta in Hcases.
  destruct Hcases as [(_ & _ & ->) | [(_ & _ & Hno) | (_ & -> & _)]];
    [discriminate Hdec | congruence | reflexivity].
Qed.

(** The cooldown is one timestamp for all instruments: after a trading
    decision for X at the time [T], and after any further attempts, an
    attempt for any instrument Y that reads a time before
    [T + cooldownPeriod] is skipped without a call. *)
Theorem cooldown_shared_by_instruments
    (self0 self1 self2 : SlothfulTrader) (X Y action analysis : string)
    (st0 st1 st : St World) (evs : list Event) :
  (0 <= cooldownPeriod self0)%Z ->
  analyzeTradingPair self0 X st0 = (Ret self1, st1) ->
  trace st1 = trace st0 ++ evs ->
  In (EvAgentExecute (DecisionPrompt action X analysis)) evs ->
  attempts self1 self2 ->
  (fst (Date_now (world st))
   < fst (Date_now (world st0)) + cooldownPeriod self0)%Z ->
  exists st',
    analyzeTradingPair self2 Y st = (Ret self2, st')
    /\ trace st' = trace st.
Proof.
  intros Hcd Hrun Htr Hin Hatt Hsoon.
  apply AgentProps.cooldown_blocks_every_symbol
    with (X := X) (st0 := st0) (st1 := st1) (evs := evs)
         (self0 := self0) (self1 := self1);
    try assumption.
  apply existsb_exists. eexists. split; [exact Hin | reflexivity].
Qed.

(** While the memory service rejects every write, the agent never reaches
    a trading decision: the insight cannot be stored, so whatever the
    analysis says no decision prompt is sent and the object stays as it
    was. *)
Theorem memory_down_never_decides
    (self : SlothfulTrader) (symbol : string) (st : St World) :
  (forall path key data stamp w,
      exists e w', apiClient_post path key data stamp w = (Throw e, w')) ->
  exists st' evs,
    analyzeTradingPair self symbol st = (Ret self, st')
    /\ trace st' = trace st ++ evs
    /\ existsb is_decision evs = false.
Proof.
  intros Hdown.
  unfold analyzeTradingPair, try_catch, bind, ask, call, ret.
  destruct (Date_now (world st)) as [now w1]; cbn [world trace].
  destruct (now - lastTradeTimestamp self <? cooldownPeriod self)%Z.
  { exists {| world := w1; trace := trace st |}, [].
    cbn [trace]. rewrite app_nil_r. auto. }
  cbn [world trace].
  destruct (agent_execute (AnalysisPrompt symbol) w1) as [[resp|e] w2];
    cbn [world trace].
  2: { do 2 eexists. split; [reflexivity|]. split; reflexivity. }
  unfold TradingMemory.storeMarketInsight, TradingMemory.store,
    try_catch, bind, ask, call, throw.
  repeat (cbn [world trace];
          match goal with
          | |- context [Date_now ?w] => destruct (Date_now w) as [? ?]
          | |- context [apiClient_post ?a ?b ?c ?d ?w] =>
              let H := fresh "Hpost" in
              destruct (Hdown a b c d w) as (? & ? & H); rewrite H
          end).
  do 2 eexists. split; [reflexivity|]. cbn [trace].
  rewrite <- app_assoc. split; reflexivity.
Qed.

(** The [executed] flag of the record is a substring test: an answer of
    the agent that contains "unsuccessful" is recorded as an executed
    trade. *)
Theorem unsuccessful_recorded_as_executed
    (symbol analysis pre post : string) (st : St World) (w : World) :
  (forall action,
      agent_execute (DecisionPrompt action symbol analysis) (world st)
      = (Ret {| text := (pre ++ "unsuccessful" ++ post)%string |}, w)) ->
  exists st' ev,
    executeTradingDecision symbol analysis st = (Ret tt, st')
    /\ In ev (trace st')
    /\ stored_executed ev = Some true.
Proof.
  intros Hagent.
  assert (Hinc : Str.includes "successful"
                   (Str.toLowerCase (pre ++ "unsuccessful" ++ post)%string)
                 = true).
  { rewrite toLowerCase_app. apply includes_later.
    change (Str.toLowerCase ("unsuccessful" ++ post)%string)
      with ("un" ++ ("successful" ++ Str.toLowerCase post))%string.
    apply includes_later, includes_here. }
  unfold executeTradingDecision, try_catch, bind, call, ask, ret.
  rewrite Hagent. cbn [world trace text].
  destruct (Date_now w) as [now w1]; cbn [world trace].
  rewrite Hinc, orb_true_r.
  unfold TradingMemory.storeTradingDecision, bind, ask.
  cbn [world trace entry_timestamp entry_symbol entry_action entry_signal
       entry_indicators entry_result entry_notes].
  destruct (Date_now w1) as [now1 w2]; cbn [world trace].
  match goal with
  | |- context [TradingMemory.store ?k ?d ?s] =>
      destruct (AgentProps.store_trace k d s) as (r & st' & Hrun & Htr);
      rewrite Hrun
  end.
  cbn [trace] in Htr.
  destruct r as [[]|e]; do 2 eexists;
    (split; [reflexivity|]); rewrite Htr;
    (split; [apply in_or_app; right; left; reflexivity | reflexivity]).
Qed.

End Generic.

(** The agent refuses the decision prompt: nothing is recorded as a
    trading decision, and the cooldown starts all the same. *)
Lemma decision_attempt_starts_cooldown_witness :
  let caps := Demo2.capabilities true (Throw (Error "model overloaded")) in
  let run := analyzeTradingPair (B := Demo.builtins) (caps := caps)
               new_SlothfulTrader "ETH/USDC" Demo.start in
  let self' := set_lastTradeTimestamp new_SlothfulTrader 1000000 in
  run = (Ret self', snd run)
  /\ existsb is_decision (trace (snd run)) = true
  /\ existsb (fun ev => SignalEngine.is_some (stored_executed ev))
       (trace (snd run)) = false
  /\ lastTradeTimestamp self'
     = fst (Date_now (Capabilities := caps) (world Demo.start)).
Proof.
  intros caps run self'.
  assert (Hrun : run = (Ret self', snd run)) by (vm_compute; reflexivity).
  assert (Hdec : existsb is_decision (trace (snd run)) = true)
    by (vm_compute; reflexivity).
  split; [exact Hrun|]. split; [exact Hdec|].
  split; [vm_compute; reflexivity|].
  apply (decision_attempt_starts_cooldown (B := Demo.builtins) (caps := caps))
    with (self := new_SlothfulTrader) (symbol := "ETH/USDC"%string)
         (st' := snd run) (evs := trace (snd run));
    [exact Hrun | reflexivity | exact Hdec].
Defined.

(** After the trade on ETH/USDC at 1000000, the attempt on BTC/USDC a few
    seconds later is skipped. *)
Lemma cooldown_shared_by_instruments_witness :
  let self0 := new_SlothfulTrader in
  let run := analyzeTradingPair (B := Demo.builtins)
               (caps := Demo.capabilities) self0 "ETH/USDC" Demo.start in
  let self1 := set_lastTradeTimestamp self0 1000000 in
  (0 <= cooldownPeriod self0)%Z
  /\ run = (Ret self1, snd run)
  /\ In (EvAgentExecute
           (DecisionPrompt "buy" "ETH/USDC" "Strong BUY signal"))
        (trace (snd run))
  /\ attempts (B := Demo.builtins) (caps := Demo.capabilities) self1 self1
  /\ (fst (Date_now (Capabilities := Demo.capabilities) (world (snd run)))
      < fst (Date_now (Capabilities := Demo.capabilities) (world Demo.start))
        + cooldownPeriod self0)%Z
  /\ exists st',
      analyzeTradingPair (B := Demo.builtins) (caps := Demo.capabilities)
        self1 "BTC/USDC" (snd run)
      = (Ret self1, st')
      /\ trace st' = trace (snd run).
Proof.
  intros self0 run self1.
  assert (Hcd : (0 <= cooldownPeriod self0)%Z) by (vm_compute; discriminate).
  assert (Hrun : run = (Ret self1, snd run)) by (vm_compute; reflexivity).
  assert (Hin : In (EvAgentExecute
                      (DecisionPrompt "buy" "ETH/USDC" "Strong BUY signal"))
                   (trace (snd run)))
    by (vm_compute; auto).
  assert (Hatt : attempts (B := Demo.builtins) (caps := Demo.capabilities)
                   self1 self1)
    by apply attempts_none.
  assert (Hsoon :
            (fst (Date_now (Capabilities := Demo.capabilities) (world (snd run)))
             < fst (Date_now (Capabilities := Demo.capabilities)
                      (world Demo.start))
               + cooldownPeriod self0)%Z)
    by (vm_compute; reflexivity).
  split; [exact Hcd|]. split; [exact Hrun|]. split; [exact Hin|].
  split; [exact Hatt|]. split; [exact Hsoon|].
  apply cooldown_shared_by_instruments
    with (self0 := self0) (self1 := self1) (X := "ETH/USDC"%string)
         (st0 := Demo.start) (st1 := snd run) (evs := trace (snd run))
         (action := "buy"%string) (analysis := "Strong BUY signal"%string);
    [exact Hcd | exact Hrun | reflexivity | exact Hin | exact Hatt
     | exact Hsoon].
Defined.

(** The memory service is down: the analysis says BUY, the insight is not
    stored, no decision is sent. *)
Lemma memory_down_never_decides_witness :
  let caps := Demo2.capabilities false (Ret {| text := "executed" |}) in
  (forall path key data stamp w,
      exists e w',
        apiClient_post (Capabilities := caps) path key data stamp w
        = (Throw e, w'))
  /\ exists st' evs,
      analyzeTradingPair (B := Demo.builtins) (caps := caps)
        new_SlothfulTrader "ETH/USDC" Demo.start
      = (Ret new_SlothfulTrader, st')
      /\ trace st' = trace Demo.start ++ evs
      /\ existsb is_decision evs = false.
Proof.
  intros caps.
  assert (H : forall path key data stamp w,
             exists e w',
               apiClient_post (Capabilities := caps) path key data stamp w
               = (Throw e, w')).
  { intros. do 2 eexists. reflexivity. }
  split; [exact H|].
  exact (memory_down_never_decides (B := Demo.builtins) (caps := caps)
           new_SlothfulTrader "ETH/USDC" Demo.start H).
Defined.

(** The agent answers that the trade was unsuccessful; the record says
    executed. *)
Lemma unsuccessful_recorded_as_executed_witness :
  let answer := "Trade was unsuccessful: insufficient funds"%string in
  let caps := Demo2.capabilities true (Ret {| text := answer |}) in
  (forall action,
      agent_execute (Capabilities := caps)
        (DecisionPrompt action "ETH/USDC" "Strong BUY signal")
        (world Demo.start)
      = (Ret {| text := ("Trade was " ++ "unsuccessful"
                         ++ ": insufficient funds")%string |},
         world Demo.start))
  /\ exists st' ev,
      executeTradingDecision (B := Demo.builtins) (caps := caps)
        "ETH/USDC" "Strong BUY signal" Demo.start
      = (Ret tt, st')
      /\ In ev (trace st')
      /\ stored_executed ev = Some true.
Proof.
  intros answer caps.
  assert (H : forall action,
             agent_execute (Capabilities := caps)
               (DecisionPrompt action "ETH/USDC" "Strong BUY signal")
               (world Demo.start)
             = (Ret {| text := ("Trade was " ++ "unsuccessful"
                                ++ ": insufficient funds")%string |},
                world Demo.start))
    by (intros; reflexivity).
  split; [exact H|].
  exact (unsuccessful_recorded_as_executed (B := Demo.builtins) (caps := caps)
           "ETH/USDC" "Strong BUY signal" "Trade was " ": insufficient funds"
           Demo.start H).
Defined.

End AgentExtras.
